(** * math3.py: three wildcard imports, one loop

    A shallow embedding of [code/math3.py]:

<<
    from math import *
    from numpy import *
    from cmath import *

    inf = float("inf")
    for fn, num in zip([sqrt, ceil, isfinite], [-1, 4.5, inf * 1j]):
        try:
            print(f"{fn.__name__}({num}) -> {fn(num)}")
        except Exception as err:
            print(err)
>>

    The script is nine lines, but what it prints is decided by three things
    that the lines do not show: which module each of [sqrt], [ceil] and
    [isfinite] is taken from once the three [import *] statements have run,
    what the chosen library function does on its argument, and how Python
    turns the values into text.  The development models each of them:

    - [F64]: IEEE 754 binary64 values ([spec_float] of the Standard Library
      at precision 53) with the operations the libraries use;
    - [Repr]: [repr] of a float and of a complex number (shortest digit
      string that reads back as the same float);
    - values, exceptions and a small error monad [res];
    - the library functions behind the eight function objects that are ever
      bound to the three names;
    - module namespaces as [gmap string value] and [import_star];
    - the script itself, in a state-and-error monad over standard output,
      and a small-step relation for the same loop.

    The library functions follow CPython 3.12 ([mathmodule.c],
    [cmathmodule.c], [complexobject.c], [pystrtod.c]) and NumPy 1.26; the
    messages of exceptions are worded as these releases word them. *)

From Stdlib Require Import ZArith String Ascii List.
From Stdlib Require Import SpecFloat.
From stdpp Require Import base option list gmap strings pretty.

Open Scope Z_scope.

(** ** Binary64 floating point *)

Module F64.

Definition prec : Z := 53.
Definition emax : Z := 1024.

Definition add := SFadd prec emax.
Definition sub := SFsub prec emax.
Definition mul := SFmul prec emax.
Definition div := SFdiv prec emax.
Definition sqrt := SFsqrt prec emax.
Definition ldexp := SFldexp prec emax.
Definition ltb := SFltb.
Definition leb := SFleb.
Definition abs := SFabs.

Definition pzero : spec_float := S754_zero false.
Definition pinf : spec_float := S754_infinity false.
Definition nan : spec_float := S754_nan.

(** The float nearest to the integer [n] (ties to even); an infinity when
    [n] is out of range. *)
Definition of_Z (n : Z) : spec_float := binary_normalize prec emax n 0 false.

(** The float nearest to [n * 2^e]. *)
Definition of_dyadic (n e : Z) : spec_float := binary_normalize prec emax n e false.

(** A decimal literal [n / 10^k] of the source text, for literals whose
    digits [n] and power [10^k] are both exact floats (at most 15 digits,
    [k <= 22]): one correctly rounded division. *)
Definition of_decimal (n : Z) (k : Z) : spec_float := div (of_Z n) (of_Z (10 ^ k)).

Definition one : spec_float := of_Z 1.
Definition two : spec_float := of_Z 2.
Definition eight : spec_float := of_Z 8.

Definition is_nan (x : spec_float) : bool :=
  match x with S754_nan => true | _ => false end.

Definition is_inf (x : spec_float) : bool :=
  match x with S754_infinity _ => true | _ => false end.

Definition is_finite (x : spec_float) : bool :=
  match x with
  | S754_zero _ | S754_finite _ _ _ => true
  | S754_infinity _ | S754_nan => false
  end.

Definition is_zero (x : spec_float) : bool :=
  match x with S754_zero _ => true | _ => false end.

(** Sign bit; [spec_float] NaNs have none, and the libraries below never
    look at the sign of a NaN. *)
Definition signbit (x : spec_float) : bool :=
  match x with
  | S754_zero s | S754_infinity s | S754_finite s _ _ => s
  | S754_nan => false
  end.

Definition copysign (x y : spec_float) : spec_float :=
  match x with
  | S754_zero _ => S754_zero (signbit y)
  | S754_infinity _ => S754_infinity (signbit y)
  | S754_finite _ m e => S754_finite (signbit y) m e
  | S754_nan => S754_nan
  end.

(** Least integer not below a finite float; [None] on infinities and NaN. *)
Definition ceil_Z (x : spec_float) : option Z :=
  match x with
  | S754_zero _ => Some 0
  | S754_finite s m e =>
      let n := if s then Z.neg m else Z.pos m in
      Some (if 0 <=? e then n * 2 ^ e else - ((- n) / 2 ^ (- e)))
  | S754_infinity _ | S754_nan => None
  end.

(** A finite float with its fraction dropped; [None] on infinities and
    NaN. *)
Definition trunc_Z (x : spec_float) : option Z :=
  match x with
  | S754_zero _ => Some 0
  | S754_finite s m e =>
      let n := if s then Z.neg m else Z.pos m in
      Some (if 0 <=? e then n * 2 ^ e else Z.quot n (2 ^ (- e)))
  | S754_infinity _ | S754_nan => None
  end.

(** C's [ceil]: the result keeps the sign of the argument, so
    [ceil(-0.5)] is [-0.0]. *)
Definition ceil (x : spec_float) : spec_float :=
  match x with
  | S754_finite s _ _ =>
      match ceil_Z x with
      | Some 0 => S754_zero s
      | Some n => of_Z n
      | None => x
      end
  | _ => x
  end.

(** C's [hypot].  The C library promises an accurate result, not a
    particular one; it is taken here to be the correctly rounded one, the
    square root of the exact sum of squares rounded once, which is what
    every library returns when one argument is zero (the case of the
    script).  An infinite argument gives infinity even when the other one
    is NaN. *)
Definition hypot (x y : spec_float) : spec_float :=
  match x, y with
  | S754_infinity _, _ | _, S754_infinity _ => pinf
  | S754_nan, _ | _, S754_nan => nan
  | S754_zero _, _ => abs y
  | _, S754_zero _ => abs x
  | S754_finite _ mx ex, S754_finite _ my ey =>
      let e := Z.min ex ey in
      let ax := Z.pos mx * 2 ^ (ex - e) in
      let ay := Z.pos my * 2 ^ (ey - e) in
      let '(mz, ez, lz) := SFsqrt_core_binary prec emax (ax * ax + ay * ay) (2 * e) in
      binary_round_aux prec emax false mz ez lz
  end.

(** Smallest positive normal float, [DBL_MIN]. *)
Definition dbl_min : spec_float := of_dyadic 1 (-1022).

End F64.

(** ** [repr] of floats and complex numbers

    CPython prints a float with the shortest decimal digit string that
    reads back as the same float ([PyOS_double_to_string] with format code
    ['r'], on top of [_Py_dg_dtoa] in mode 0) and lays the digits out in
    [format_float_short].  [shortest] is that digit string by its
    specification, found by exact integer arithmetic. *)

Module Repr.

(** [m * 2^e / 10^k], rounded down. *)
Definition floor_scaled (m e k : Z) : Z :=
  (m * 2 ^ Z.max e 0 * 10 ^ Z.max (- k) 0) / (2 ^ Z.max (- e) 0 * 10 ^ Z.max k 0).

(** [a * 2^e] compared with [d * 10^k]. *)
Definition cmp_scaled (a e d k : Z) : comparison :=
  (a * 2 ^ Z.max e 0 * 10 ^ Z.max (- k) 0 ?= d * 10 ^ Z.max k 0 * 2 ^ Z.max (- e) 0).

(** The exponent [t] with [10^t <= m * 2^e < 10^(t+1)]. *)
Definition decimal_exponent (m e : Z) : Z :=
  let est := (Z.log2 m + e) * 30103 / 100000 in
  let fits t := let q := floor_scaled m e t in (1 <=? q) && (q <=? 9) in
  default est (List.find fits [est - 1; est; est + 1; est + 2]).

(** Does [d * 10^k] read back as the float [m * 2^e]?  The float's
    rounding interval ends half-way to its two neighbours; the lower
    neighbour is only half as far when [m] is the least normal mantissa.
    The end points belong to the interval when [m] is even. *)
Definition reads_back (m e d k : Z) : bool :=
  let narrow := (m =? 2 ^ (F64.prec - 1)) && (3 - F64.emax - F64.prec <? e) in
  let lo := 4 * m - (if narrow then 1 else 2) in
  let hi := 4 * m + 2 in
  let inside c := match c with Lt => true | Eq => Z.even m | Gt => false end in
  inside (cmp_scaled lo (e - 2) d k) && inside (CompOpp (cmp_scaled hi (e - 2) d k)).

(** The best [n]-digit decimal for [m * 2^e], when one reads back: of
    the two [n]-digit neighbours of the value, the nearer one that reads
    back (the even one on a tie). *)
Definition candidate (m e t : Z) (n : Z) : option (Z * Z) :=
  let k := t - n + 1 in
  let lo := floor_scaled m e k in
  let hi := lo + 1 in
  match reads_back m e lo k, reads_back m e hi k with
  | true, false => Some (lo, k)
  | false, true => Some (hi, k)
  | true, true =>
      match cmp_scaled (2 * m) e (lo + hi) k with
      | Lt => Some (lo, k)
      | Gt => Some (hi, k)
      | Eq => Some (if Z.even lo then lo else hi, k)
      end
  | false, false => None
  end.

Fixpoint first_candidate (m e t : Z) (ns : list Z) : option (Z * Z) :=
  match ns with
  | [] => None
  | n :: ns' =>
      match candidate m e t n with
      | Some dk => Some dk
      | None => first_candidate m e t ns'
      end
  end.

(** Trailing zeros of the digits move into the exponent. *)
Fixpoint strip_zeros (fuel : nat) (d k : Z) : Z * Z :=
  match fuel with
  | O => (d, k)
  | S fuel' => if (d mod 10 =? 0) && (0 <? d) then strip_zeros fuel' (d / 10) (k + 1) else (d, k)
  end.

(** Digits and decimal point of the shortest string for [m * 2^e]: the
    value printed is [0.d1d2...dn * 10^decpt].  Seventeen digits always
    read back. *)
Definition shortest (m e : Z) : string * Z :=
  let t := decimal_exponent m e in
  let '(d, k) :=
    match first_candidate m e t (List.map Z.of_nat (seq 1 17)) with
    | Some (d, k) => strip_zeros 17 d k
    | None => (floor_scaled m e (t - 16), t - 16)
    end in
  let digits : string := pretty d in
  (digits, Z.of_nat (String.length digits) + k).

Definition zeros (n : Z) : string := String.concat "" (repeat "0"%string (Z.to_nat n)).

Definition take (n : Z) (s : string) : string := substring 0 (Z.to_nat n) s.
Definition drop (n : Z) (s : string) : string :=
  substring (Z.to_nat n) (String.length s - Z.to_nat n) s.

(** [format_float_short] for format code ['r']: exponent notation when
    [decpt <= -4] or [decpt > 16]; [add_dot_0] appends [.0] to a result
    that would look like an integer (not in exponent notation). *)
Definition layout (add_dot_0 : bool) (digits : string) (decpt : Z) : string :=
  let n := Z.of_nat (String.length digits) in
  if (decpt <=? -4) || (16 <? decpt) then
    let x := decpt - 1 in
    let ax : string := pretty (Z.abs x) in
    take 1 digits +:+ (if 1 <? n then "." +:+ drop 1 digits else "")
      +:+ "e" +:+ (if x <? 0 then "-" else "+")
      +:+ (if Z.abs x <? 10 then "0" else "") +:+ ax
  else if decpt <=? 0 then
    "0." +:+ zeros (- decpt) +:+ digits
  else if n <=? decpt then
    digits +:+ zeros (decpt - n) +:+ (if add_dot_0 then ".0" else "")
  else
    take decpt digits +:+ "." +:+ drop decpt digits.

(** [PyOS_double_to_string(x, 'r', 0, flags, NULL)]; [always_sign] is
    [Py_DTSF_SIGN], [add_dot_0] is [Py_DTSF_ADD_DOT_0]. *)
Definition double_to_string (always_sign add_dot_0 : bool) (x : spec_float) : string :=
  let sign (s : bool) : string := if s then "-" else if always_sign then "+" else "" in
  match x with
  | S754_nan => sign false +:+ "nan"
  | S754_infinity s => sign s +:+ "inf"
  | S754_zero s => sign s +:+ layout add_dot_0 "0" 1
  | S754_finite s m e =>
      let '(digits, decpt) := shortest (Z.pos m) e in
      sign s +:+ layout add_dot_0 digits decpt
  end.

(** [float.__repr__], which is also [float.__str__]. *)
Definition float_repr (x : spec_float) : string := double_to_string false true x.

(** [complex.__repr__]: a real part that is positive zero is left out,
    together with the parentheses. *)
Definition complex_repr (re im : spec_float) : string :=
  match re with
  | S754_zero false => double_to_string false false im +:+ "j"
  | _ =>
      "(" +:+ double_to_string false false re +:+ double_to_string true false im +:+ "j)"
  end.

End Repr.

(** ** Exceptions *)

(** The part of Python's exception hierarchy the script can meet.
    [KeyboardInterrupt] stands for the classes that derive from
    [BaseException] directly, which [except Exception] lets through. *)
Inductive exn_class : Set :=
| BaseException
| Exception
| KeyboardInterrupt
| ArithmeticError
| OverflowError
| ValueError
| TypeError
| NameError
| AttributeError.

#[global] Instance exn_class_eq_dec : EqDecision exn_class.
Proof. solve_decision. Defined.

(** [__base__] of each class. *)
Definition base (c : exn_class) : option exn_class :=
  match c with
  | BaseException => None
  | Exception | KeyboardInterrupt => Some BaseException
  | ArithmeticError | ValueError | TypeError | NameError | AttributeError => Some Exception
  | OverflowError => Some ArithmeticError
  end.

Fixpoint issubclass_upto (depth : nat) (c d : exn_class) : bool :=
  if decide (c = d) then true
  else match depth, base c with
       | S depth', Some b => issubclass_upto depth' b d
       | _, _ => false
       end.

(** No class above is more than three steps below [BaseException]. *)
Definition issubclass (c d : exn_class) : bool := issubclass_upto 3 c d.

(** An exception instance: its class and its single argument, which is
    what [str(err)] and so [print(err)] show. *)
Record exn : Set := mk_exn { exn_cls : exn_class; exn_msg : string }.

Definition exn_str (e : exn) : string := exn_msg e.

Definition isinstance (e : exn) (c : exn_class) : bool := issubclass (exn_cls e) c.

(** ** Results of evaluation

    [Unmodelled] marks behaviour of the libraries that this development
    does not describe (NumPy's own complex and half-precision arithmetic,
    decimal strings given to [float], a namespace in which an import has
    rebound one of the builtins the script reads, ...).  It is not an exception: no
    handler catches it, and every statement about the script shows that
    the script stays clear of it. *)
Inductive res (A : Type) : Type :=
| Ok (a : A)
| Raise (e : exn)
| Unmodelled.

Arguments Ok {A} a.
Arguments Raise {A} e.
Arguments Unmodelled {A}.

#[global] Instance res_ret : MRet res := λ A a, Ok a.
#[global] Instance res_bind : MBind res := λ A B f m,
  match m with
  | Ok a => f a
  | Raise e => Raise e
  | Unmodelled => Unmodelled
  end.

Definition raise {A} (c : exn_class) (msg : string) : res A := Raise (mk_exn c msg).

(** ** Values *)

(** The function objects that the three modules bind to the names the
    script uses. *)
Inductive builtin : Set :=
| math_sqrt | math_ceil | math_isfinite
| numpy_sqrt | numpy_ceil | numpy_isfinite
| cmath_sqrt | cmath_isfinite.

Inductive value : Set :=
| VInt (n : Z)
| VBool (b : bool)
| VFloat (x : spec_float)
| VComplex (re im : spec_float)
| VFloat64 (x : spec_float)      (* numpy.float64 *)
| VBool_ (b : bool)              (* numpy.bool_ *)
| VFn (f : builtin).

#[global] Instance spec_float_eq_dec : EqDecision spec_float.
Proof. solve_decision. Defined.

#[global] Instance builtin_eq_dec : EqDecision builtin.
Proof. solve_decision. Defined.

#[global] Instance value_eq_dec : EqDecision value.
Proof. solve_decision. Defined.

Definition is_ufunc (f : builtin) : bool :=
  match f with
  | numpy_sqrt | numpy_ceil | numpy_isfinite => true
  | _ => false
  end.

(** [f.__name__] *)
Definition fn_name (f : builtin) : string :=
  match f with
  | math_sqrt | numpy_sqrt | cmath_sqrt => "sqrt"
  | math_ceil | numpy_ceil => "ceil"
  | math_isfinite | numpy_isfinite | cmath_isfinite => "isfinite"
  end.

(** [type(v).__name__] as error messages spell it *)
Definition type_name (v : value) : string :=
  match v with
  | VInt _ => "int"
  | VBool _ => "bool"
  | VFloat _ => "float"
  | VComplex _ _ => "complex"
  | VFloat64 _ => "numpy.float64"
  | VBool_ _ => "numpy.bool_"
  | VFn f => if is_ufunc f then "numpy.ufunc" else "builtin_function_or_method"
  end.

(** [v.__name__]: only the function objects have one. *)
Definition getattr_name (v : value) : res string :=
  match v with
  | VFn f => Ok (fn_name f)
  | _ => raise AttributeError ("'" +:+ type_name v +:+ "' object has no attribute '__name__'")
  end.

Definition bool_str (b : bool) : string := if b then "True" else "False".

(** The text of [str(v)].  It is what [format(v, "")], and so a
    replacement field [{v}] of an f-string, produces when the conversion
    is allowed: see [format_field] below for the one case in which
    CPython refuses it. *)
Definition format (v : value) : string :=
  match v with
  | VInt n => pretty n
  | VBool b | VBool_ b => bool_str b
  | VFloat x | VFloat64 x => Repr.float_repr x
  | VComplex re im => Repr.complex_repr re im
  | VFn f =>
      if is_ufunc f then "<ufunc '" +:+ fn_name f +:+ "'>"
      else "<built-in function " +:+ fn_name f +:+ ">"
  end.

(** CPython limits the length of the decimal text of an [int]
    ([sys.get_int_max_str_digits()]): 4300 digits unless the environment
    variable [PYTHONINTMAXSTRDIGITS] or the option [-X int_max_str_digits]
    says otherwise; 0 lifts the limit, and no limit below 640 can be set. *)
Definition DEFAULT_MAX_STR_DIGITS : Z := 4300.
Definition MAX_STR_DIGITS_THRESHOLD : Z := 640.

(** [long_to_decimal_string_internal]: the setting is consulted for a text
    longer than the threshold, and the digits are counted without the
    sign. *)
Definition int_str_too_long (limit n : Z) : bool :=
  (MAX_STR_DIGITS_THRESHOLD <? Z.of_nat (String.length (pretty n)))
  && (0 <? limit)
  && (limit <? Z.of_nat (String.length (pretty (Z.abs n)))).

Definition int_str_error (limit : Z) : string :=
  "Exceeds the limit (" +:+ pretty limit +:+ " digits) for integer string conversion; "
  +:+ "use sys.set_int_max_str_digits() to increase the limit".

(** [format(v, "")] as a replacement field evaluates it, under the limit
    [limit]: the text of the value, and a [ValueError] for an integer
    with too many digits. *)
Definition format_field (limit : Z) (v : value) : res string :=
  match v with
  | VInt n => if int_str_too_long limit n then raise ValueError (int_str_error limit)
              else Ok (format v)
  | _ => Ok (format v)
  end.

(** ** Argument conversions of the C implementations *)

Definition Z_of_bool (b : bool) : Z := if b then 1 else 0.

(** [PyLong_AsDouble] *)
Definition int_as_double (n : Z) : res spec_float :=
  let x := F64.of_Z n in
  if F64.is_inf x then raise OverflowError "int too large to convert to float" else Ok x.

(** [PyFloat_AsDouble]: floats and their subclasses as they are, integers
    rounded, anything without [__float__] or [__index__] refused. *)
Definition as_double (v : value) : res spec_float :=
  match v with
  | VFloat x | VFloat64 x => Ok x
  | VInt n => int_as_double n
  | VBool b | VBool_ b => Ok (F64.of_Z (Z_of_bool b))
  | VComplex _ _ | VFn _ => raise TypeError ("must be real number, not " +:+ type_name v)
  end.

(** [PyComplex_AsCComplex]: a complex number as it is, a real number with
    imaginary part [0.0]. *)
Definition as_complex (v : value) : res (spec_float * spec_float) :=
  match v with
  | VComplex re im => Ok (re, im)
  | _ => x ← as_double v; Ok (x, F64.pzero)
  end.

(** ** The [math] module (CPython's [mathmodule.c]) *)

Module math.

(** [math.sqrt]: the C square root; a NaN result from an argument that
    is not NaN is a domain error. *)
Definition sqrt (v : value) : res value :=
  x ← as_double v;
  let r := F64.sqrt x in
  if F64.is_nan r && negb (F64.is_nan x) then raise ValueError "math domain error"
  else Ok (VFloat r).

(** [PyLong_FromDouble]: the integer part of a finite float. *)
Definition int_of_double (x : spec_float) : res value :=
  match F64.trunc_Z x, x with
  | Some n, _ => Ok (VInt n)
  | None, S754_nan => raise ValueError "cannot convert float NaN to integer"
  | None, _ => raise OverflowError "cannot convert float infinity to integer"
  end.

(** [math.ceil]: [__ceil__] of the argument when it has one (integers
    return themselves, floats their ceiling as an [int]), the ceiling of
    its float value otherwise. *)
Definition ceil (v : value) : res value :=
  match v with
  | VInt n => Ok (VInt n)
  | VBool b => Ok (VInt (Z_of_bool b))
  | _ => x ← as_double v; int_of_double (F64.ceil x)
  end.

(** [math.isfinite] *)
Definition isfinite (v : value) : res value :=
  x ← as_double v; Ok (VBool (F64.is_finite x)).

(** The public names of the module that the script mentions ([pi], [e],
    [floor] and the rest are bound by [import *] as well, and never
    read). *)
Definition exports : list (string * value) :=
  [ ("ceil", VFn math_ceil);
    ("inf", VFloat F64.pinf);
    ("isfinite", VFn math_isfinite);
    ("nan", VFloat F64.nan);
    ("sqrt", VFn math_sqrt) ].

End math.

(** ** The [cmath] module (CPython's [cmathmodule.c]) *)

Module cmath.

(** [sqrt_special_values]: the results for arguments with an infinite or
    NaN part, as Annex G of C99 lists them. *)
Definition sqrt_special (x y : spec_float) : spec_float * spec_float :=
  if F64.is_inf y then (F64.pinf, y)
  else if F64.is_nan x then (F64.nan, F64.nan)
  else if F64.is_nan y then
    match x with
    | S754_infinity true => (F64.nan, F64.pinf)
    | S754_infinity false => (F64.pinf, F64.nan)
    | _ => (F64.nan, F64.nan)
    end
  else
    match x with
    | S754_infinity true => (F64.pzero, F64.copysign F64.pinf y)
    | _ => (F64.pinf, F64.copysign F64.pzero y)
    end.

Definition CM_SCALE_UP : Z := 2 * (F64.prec / 2) + 1.
Definition CM_SCALE_DOWN : Z := - ((CM_SCALE_UP + 1) / 2).

(** [cmath_sqrt_impl].  With [x] and [y] the absolute values of the
    parts, the result has real part [s = 2 * sqrt(x/8 + hypot(x/8, y/8))]
    and imaginary part [d = y / (2 * s)], exchanged and signed when the
    real part of the argument is negative; arguments with two subnormal
    parts are scaled up first. *)
Definition c_sqrt (zr zi : spec_float) : spec_float * spec_float :=
  if negb (F64.is_finite zr && F64.is_finite zi) then sqrt_special zr zi
  else if F64.is_zero zr && F64.is_zero zi then (F64.pzero, zi)
  else
    let ax := F64.abs zr in
    let ay := F64.abs zi in
    let s :=
      if F64.ltb ax F64.dbl_min && F64.ltb ay F64.dbl_min then
        let ax := F64.ldexp ax CM_SCALE_UP in
        F64.ldexp (F64.sqrt (F64.add ax (F64.hypot ax (F64.ldexp ay CM_SCALE_UP))))
                  CM_SCALE_DOWN
      else
        let ax := F64.div ax F64.eight in
        F64.mul F64.two (F64.sqrt (F64.add ax (F64.hypot ax (F64.div ay F64.eight)))) in
    let d := F64.div ay (F64.mul F64.two s) in
    if F64.leb F64.pzero zr then (s, F64.copysign d zi)
    else (d, F64.copysign s zi).

(** [cmath.sqrt]: never an error on a number. *)
Definition sqrt (v : value) : res value :=
  z ← as_complex v;
  let '(re, im) := c_sqrt z.1 z.2 in
  Ok (VComplex re im).

(** [cmath.isfinite]: both parts finite. *)
Definition isfinite (v : value) : res value :=
  z ← as_complex v;
  Ok (VBool (F64.is_finite z.1 && F64.is_finite z.2)).

(** [cmath] has no [ceil]: rounding makes no sense for complex numbers. *)
Definition exports : list (string * value) :=
  [ ("inf", VFloat F64.pinf);
    ("infj", VComplex F64.pzero F64.pinf);
    ("isfinite", VFn cmath_isfinite);
    ("nan", VFloat F64.nan);
    ("nanj", VComplex F64.pzero F64.nan);
    ("sqrt", VFn cmath_sqrt) ].

End cmath.

(** ** NumPy's ufuncs, on scalars

    A ufunc applied to a Python float or a [numpy.float64] runs its
    [double] loop and returns a NumPy scalar; it reports an invalid
    operation by a warning on standard error, never by an exception.  A
    Python integer that fits a 64-bit integer type is cast to [double] by
    [sqrt].  What [ceil] returns on integers has changed between NumPy
    releases, booleans go through half precision, and complex arithmetic
    is NumPy's own: these are left [Unmodelled]. *)

Module numpy.

Definition no_loop (name : string) : res value :=
  raise TypeError
    ("ufunc '" +:+ name +:+ "' not supported for the input types, and the inputs could "
     +:+ "not be safely coerced to any supported types according to the casting rule ''safe''").

(** Does the integer fit [int64] or [uint64]? *)
Definition fits_int64 (n : Z) : bool := (- 2 ^ 63 <=? n) && (n <? 2 ^ 64).

Definition sqrt (v : value) : res value :=
  match v with
  | VFloat x | VFloat64 x => Ok (VFloat64 (F64.sqrt x))
  | VInt n => if fits_int64 n then Ok (VFloat64 (F64.sqrt (F64.of_Z n))) else Unmodelled
  | _ => Unmodelled
  end.

Definition ceil (v : value) : res value :=
  match v with
  | VFloat x | VFloat64 x => Ok (VFloat64 (F64.ceil x))
  | VComplex _ _ => no_loop "ceil"
  | _ => Unmodelled
  end.

Definition isfinite (v : value) : res value :=
  match v with
  | VFloat x | VFloat64 x => Ok (VBool_ (F64.is_finite x))
  | VComplex re im => Ok (VBool_ (F64.is_finite re && F64.is_finite im))
  | VBool _ | VBool_ _ => Ok (VBool_ true)
  | VInt n => if fits_int64 n then Ok (VBool_ true) else Unmodelled
  | _ => Unmodelled
  end.

(** Of the several hundred names in [numpy.__all__], those that the
    script mentions.  Python's [float], [zip], [print] and [Exception]
    are not among the names NumPy exports. *)
Definition exports : list (string * value) :=
  [ ("ceil", VFn numpy_ceil);
    ("inf", VFloat F64.pinf);
    ("isfinite", VFn numpy_isfinite);
    ("nan", VFloat F64.nan);
    ("sqrt", VFn numpy_sqrt) ].

End numpy.

(** ** Calls and arithmetic *)

Definition apply_fn (f : builtin) (arg : value) : res value :=
  match f with
  | math_sqrt => math.sqrt arg
  | math_ceil => math.ceil arg
  | math_isfinite => math.isfinite arg
  | numpy_sqrt => numpy.sqrt arg
  | numpy_ceil => numpy.ceil arg
  | numpy_isfinite => numpy.isfinite arg
  | cmath_sqrt => cmath.sqrt arg
  | cmath_isfinite => cmath.isfinite arg
  end.

(** [callee(arg)] *)
Definition call (callee arg : value) : res value :=
  match callee with
  | VFn f => apply_fn f arg
  | _ => raise TypeError ("'" +:+ type_name callee +:+ "' object is not callable")
  end.

(** [_Py_c_prod] *)
Definition c_prod (a b : spec_float * spec_float) : spec_float * spec_float :=
  (F64.sub (F64.mul a.1 b.1) (F64.mul a.2 b.2),
   F64.add (F64.mul a.1 b.2) (F64.mul a.2 b.1)).

Definition is_numpy_scalar (v : value) : bool :=
  match v with VFloat64 _ | VBool_ _ => true | _ => false end.

Definition is_complex (v : value) : bool :=
  match v with VComplex _ _ => true | _ => false end.

Definition is_float (v : value) : bool :=
  match v with VFloat _ => true | _ => false end.

Definition as_int (v : value) : option Z :=
  match v with
  | VInt n => Some n
  | VBool b => Some (Z_of_bool b)
  | _ => None
  end.

(** [a * b] on Python's own numbers: integers stay integers, a float
    operand turns the other one into a float, a complex operand turns the
    other one into a complex number with imaginary part [0.0]. *)
Definition py_mul (a b : value) : res value :=
  if is_numpy_scalar a || is_numpy_scalar b then Unmodelled
  else match a, b with
  | VFn _, _ | _, VFn _ =>
      raise TypeError ("unsupported operand type(s) for *: '" +:+ type_name a
                       +:+ "' and '" +:+ type_name b +:+ "'")
  | _, _ =>
      if is_complex a || is_complex b then
        x ← as_complex a; y ← as_complex b;
        let '(re, im) := c_prod x y in Ok (VComplex re im)
      else if is_float a || is_float b then
        x ← as_double a; y ← as_double b; Ok (VFloat (F64.mul x y))
      else
        match as_int a, as_int b with
        | Some m, Some n => Ok (VInt (m * n))
        | _, _ => Unmodelled
        end
  end.

(** ** [float] of a string *)

Definition lower_ascii (c : ascii) : ascii :=
  let n := nat_of_ascii c in
  if ((65 <=? n) && (n <=? 90))%nat then ascii_of_nat (n + 32) else c.

Fixpoint lower (s : string) : string :=
  match s with
  | EmptyString => EmptyString
  | String c s' => String (lower_ascii c) (lower s')
  end.

(** [_Py_parse_inf_or_nan]: an optional sign, then [inf], [infinity] or
    [nan] in any case. *)
Definition parse_inf_or_nan (s : string) : option spec_float :=
  let '(negate, body) :=
    match s with
    | String "-" s' => (true, s')
    | String "+" s' => (false, s')
    | _ => (false, s)
    end in
  let body := lower body in
  if decide (body = "inf" ∨ body = "infinity") then Some (S754_infinity negate)
  else if decide (body = "nan") then Some S754_nan
  else None.

(** [float(s)] for a string [s] that spells an infinity or a NaN; the
    parsing of decimal numerals is not modelled. *)
Definition float_of_str (s : string) : res value :=
  match parse_inf_or_nan s with
  | Some x => Ok (VFloat x)
  | None => Unmodelled
  end.

(** ** Module namespaces *)

(** [from m import *] assigns every public name of [m] in the importing
    module's dictionary, whatever was bound to the name before. *)
Definition import_star (exports : list (string * value)) (g : gmap string value)
  : gmap string value :=
  foldl (λ g kv, <[kv.1 := kv.2]> g) g exports.

(** Reading a global name. *)
Definition load_name (g : gmap string value) (x : string) : res value :=
  match g !! x with
  | Some v => Ok v
  | None => raise NameError ("name '" +:+ x +:+ "' is not defined")
  end.

(** ** Statements: standard output and exceptions

    A statement takes the text written to standard output so far and
    gives a result and the text written after it; what was printed before
    an exception stays printed. *)

Definition M (A : Type) : Type := string → res A * string.

#[global] Instance M_ret : MRet M := λ A a out, (Ok a, out).
#[global] Instance M_bind : MBind M := λ A B f m out,
  match m out with
  | (Ok a, out') => f a out'
  | (Raise e, out') => (Raise e, out')
  | (Unmodelled, out') => (Unmodelled, out')
  end.

(** An expression, which prints nothing, as a statement. *)
Definition lift {A} (r : res A) : M A := λ out, (r, out).

Definition newline : string := String (ascii_of_nat 10) EmptyString.

(** [print(s)] *)
Definition print (s : string) : M unit := λ out, (Ok (), out +:+ s +:+ newline).

(** [try: body / except cls as err: handler]: an exception of the body
    that is an instance of [cls] is handed to the handler, any other one
    goes on. *)
Definition try_except {A} (body : M A) (cls : exn_class) (handler : exn → M A) : M A :=
  λ out,
    match body out with
    | (Raise e, out') => if isinstance e cls then handler e out' else (Raise e, out')
    | r => r
    end.

(** [for x in xs: body x] *)
Fixpoint for_in {A} (xs : list A) (body : A → M unit) : M unit :=
  match xs with
  | [] => mret ()
  | x :: xs' => body x ≫= λ _, for_in xs' body
  end.

(** ** The script

    [float], [zip], [print] and [Exception] are names of Python's
    [builtins] module, which none of the three imports rebinds; they are
    modelled by [float_of_str], [zip], [print] and the class [Exception]
    directly. *)

(** The three imports, in the order of the source. *)
Definition globals_after_imports : gmap string value :=
  import_star cmath.exports (import_star numpy.exports (import_star math.exports ∅)).

(** [f"{fn.__name__}({num}) -> {fn(num)}"] under the limit [limit] on the
    text of integers: the fields are evaluated and formatted from left to
    right, so the input is formatted before the call is made, and the
    result after it. *)
Definition fstring_with (limit : Z) (fn num : value) : res string :=
  name ← getattr_name fn;
  shown ← format_field limit num;
  r ← call fn num;
  result ← format_field limit r;
  Ok (name +:+ "(" +:+ shown +:+ ") -> " +:+ result).

(** The body of the loop, under the limit [limit]. *)
Definition loop_body_with (limit : Z) (p : value * value) : M unit :=
  let '(fn, num) := p in
  try_except
    (line ← lift (fstring_with limit fn num); print line)
    Exception
    (λ err, print (exn_str err)).

(** The f-string and the body of the loop in an interpreter started with
    its default setting. *)
Definition fstring (fn num : value) : res string :=
  fstring_with DEFAULT_MAX_STR_DIGITS fn num.

Definition loop_body (p : value * value) : M unit :=
  loop_body_with DEFAULT_MAX_STR_DIGITS p.

(** The literal [1j]. *)
Definition ONE_J : value := VComplex F64.pzero F64.one.

(** The two list displays and [zip]. *)
Definition pairs (g : gmap string value) : res (list (value * value)) :=
  sqrt ← load_name g "sqrt";
  ceil ← load_name g "ceil";
  isfinite ← load_name g "isfinite";
  inf ← load_name g "inf";
  x ← py_mul inf ONE_J;
  Ok (zip [sqrt; ceil; isfinite] [VInt (-1); VFloat (F64.of_decimal 45 1); x]).

(** The names the script reads from [builtins].  They are modelled
    directly, so a namespace in which an import has rebound one of them is
    outside the model. *)
Definition builtins_read : list string := ["float"; "zip"; "print"; "Exception"].

Definition rebinds_builtin (g : gmap string value) : bool :=
  existsb (λ x, bool_decide (is_Some (g !! x))) builtins_read.

(** [inf = float("inf")], then the argument of the loop, in the namespace
    [g] that the imports have left: the assignment rebinds the name that
    each of the three modules had bound already. *)
Definition script_pairs_in (g : gmap string value) : res (list (value * value)) :=
  if rebinds_builtin g then Unmodelled
  else inf ← float_of_str "inf"; pairs (<["inf" := inf]> g).

Definition script_pairs : res (list (value * value)) :=
  script_pairs_in globals_after_imports.

Definition main : M unit :=
  ps ← lift script_pairs;
  for_in ps loop_body.

(** A run: the process starts with nothing written to standard output. *)
Definition run : res unit * string := main "".

Definition stdout : string := run.2.

(** What a run finds around it and the script does not choose: the
    interpreter's limit on the text of integers, and whatever else the
    installed releases of the three modules export besides the names
    modelled above. *)
Record env : Type := mk_env {
  max_str_digits : Z;
  more_math : list (string * value);
  more_numpy : list (string * value);
  more_cmath : list (string * value)
}.

Definition globals_in (ρ : env) : gmap string value :=
  import_star (cmath.exports ++ more_cmath ρ)
    (import_star (numpy.exports ++ more_numpy ρ)
       (import_star (math.exports ++ more_math ρ) ∅)).

(** The script in the environment [ρ]. *)
Definition main_in (ρ : env) : M unit :=
  ps ← lift (script_pairs_in (globals_in ρ));
  for_in ps (loop_body_with (max_str_digits ρ)).

(** The [i]-th pair that the loop visits, counting from 0. *)
Definition nth_pair (i : nat) : option (value * value) :=
  match script_pairs with
  | Ok ps => ps !! i
  | _ => None
  end.

Definition raises {A} (r : res A) : bool :=
  match r with Raise _ => true | _ => false end.

(** What one iteration writes for a pair, read off the loop body: the
    formatted line, or the message of an exception that the handler
    takes.  [None] when the iteration does not get to [print]. *)
Definition line_of (p : value * value) : option string :=
  match fstring p.1 p.2 with
  | Ok line => Some line
  | Raise e => if isinstance e Exception then Some (exn_str e) else None
  | Unmodelled => None
  end.

(** The lines of a text in which every line ends with a newline. *)
Fixpoint lines_from (cur : string) (s : string) : list string :=
  match s with
  | EmptyString => if decide (cur = "") then [] else [cur]
  | String c s' =>
      if decide (c = ascii_of_nat 10) then cur :: lines_from "" s'
      else lines_from (cur +:+ String c EmptyString) s'
  end.

Definition lines (s : string) : list string := lines_from "" s.

Fixpoint no_newline (s : string) : bool :=
  match s with
  | EmptyString => true
  | String c s' => negb (bool_decide (c = ascii_of_nat 10)) && no_newline s'
  end.

(** The text that printing the lines [ls] one after the other produces. *)
Fixpoint unlines (ls : list string) : string :=
  match ls with
  | [] => ""
  | l :: ls' => l +:+ newline +:+ unlines ls'
  end.

(** ** The loop as a transition system

    The same loop, one iteration at a time.  A configuration holds the
    pairs still to visit and the text written so far; a run ends by leaving
    the loop ([Exited]) or with an exception nobody caught ([Crashed]). *)

Inductive config : Type :=
| Running (todo : list (value * value)) (out : string)
| Exited (out : string)
| Crashed (e : exn) (out : string).

Inductive step : config → config → Prop :=
| step_print fn num todo out line :
    fstring fn num = Ok line →
    step (Running ((fn, num) :: todo) out) (Running todo (out +:+ line +:+ newline))
| step_except fn num todo out e :
    fstring fn num = Raise e →
    isinstance e Exception = true →
    step (Running ((fn, num) :: todo) out) (Running todo (out +:+ exn_str e +:+ newline))
| step_uncaught fn num todo out e :
    fstring fn num = Raise e →
    isinstance e Exception = false →
    step (Running ((fn, num) :: todo) out) (Crashed e out)
| step_exit out :
    step (Running [] out) (Exited out).

Definition final (c : config) : bool :=
  match c with
  | Running _ _ => false
  | Exited _ | Crashed _ _ => true
  end.

(** A complete execution of the script: the pairs are built, and the loop
    runs from an empty standard output to a final configuration. *)
Definition executes_to (c : config) : Prop :=
  ∃ ps, script_pairs = Ok ps ∧ rtc step (Running ps "") c ∧ final c = true.

(** The text on standard output at a configuration. *)
Definition written (c : config) : string :=
  match c with
  | Running _ out | Exited out | Crashed _ out => out
  end.

(** Two sentences of the specification, as it words them.  The first: the
    call of the [i]-th pair raises an exception of class [cls], which the
    program catches, and the [i]-th line of the output is its message,
    which is not empty. *)
Definition reports_error (i : nat) (cls : exn_class) : Prop :=
  ∃ fn num e,
    nth_pair i = Some (fn, num) ∧ call fn num = Raise e ∧ isinstance e cls = true ∧
    lines stdout !! i = Some (exn_str e) ∧ exn_str e ≠ "".

(** The second: the call of the [i]-th pair returns the integer [n], and
    the [i]-th line of the output is [line]. *)
Definition reports_int (i : nat) (n : Z) (line : string) : Prop :=
  ∃ fn num,
    nth_pair i = Some (fn, num) ∧ call fn num = Ok (VInt n) ∧ lines stdout !! i = Some line.

(** An evaluation that raises nothing but instances of [Exception], which
    is what the handler of the loop takes. *)
Definition checked {A} (r : res A) : Prop :=
  ∀ e, r = Raise e → isinstance e Exception = true.

(** The three lines the script turns out to print. *)
Definition LINE_1 : string := "sqrt(-1) -> 1j".
Definition LINE_2 : string := "ceil(4.5) -> 5.0".
Definition LINE_3 : string := "isfinite((nan+infj)) -> False".

(** The pairs the loop turns out to visit. *)
Definition PAIR_1 : value * value := (VFn cmath_sqrt, VInt (-1)).
Definition PAIR_2 : value * value := (VFn numpy_ceil, VFloat (F64.of_decimal 45 1)).
Definition PAIR_3 : value * value := (VFn cmath_isfinite, VComplex F64.nan F64.pinf).

(** The names of function objects that the script reads, and all the
    names it reads. *)
Definition function_names : list string := ["sqrt"; "ceil"; "isfinite"].
Definition names_read : list string := function_names ++ ["inf"].

(** The releases installed export none of the names the script takes from
    a particular module or from [builtins], beyond the exports modelled. *)
Definition keeps_names_read (ρ : env) : Prop :=
  Forall (λ x, (x ∉ (more_math ρ).*1) ∧ (x ∉ (more_numpy ρ).*1) ∧ (x ∉ (more_cmath ρ).*1))
         (function_names ++ builtins_read).

(** Some of what the modules export besides the names the script reads;
    a module may also bind [inf] to anything, since the script assigns the
    name itself. *)
Definition OTHER_EXPORTS : list (string * value) :=
  [ ("pi", VFloat (F64.of_decimal 314159265358979 14));
    ("e", VFloat (F64.of_decimal 271828182845905 14));
    ("inf", VInt 0) ].

(** An evaluation whose exceptions all carry a message of one line. *)
Definition one_line_errors {A} (r : res A) : Prop :=
  ∀ e, r = Raise e → no_newline (exn_str e) = true.

(** * Properties *)

Ltac by_evaluation := vm_compute; reflexivity.
Ltac decide_closed := apply (bool_decide_unpack _); by_evaluation.

(** ** Sanity checks of the number model against CPython *)

Example repr_one_tenth : Repr.float_repr (F64.of_decimal 1 1) = "0.1".
Proof. by_evaluation. Qed.

Example repr_sum : Repr.float_repr (F64.add (F64.of_decimal 1 1) (F64.of_decimal 2 1))
                   = "0.30000000000000004".
Proof. by_evaluation. Qed.

Example repr_large : Repr.float_repr (F64.of_Z (10 ^ 16)) = "1e+16".
Proof. by_evaluation. Qed.

Example repr_below_exponent_form : Repr.float_repr (F64.of_Z (10 ^ 15)) = "1000000000000000.0".
Proof. by_evaluation. Qed.

Example repr_small : Repr.float_repr (F64.of_decimal 25 6) = "2.5e-05".
Proof. by_evaluation. Qed.

Example repr_least_subnormal : Repr.float_repr (F64.of_dyadic 1 (-1074)) = "5e-324".
Proof. by_evaluation. Qed.

Example repr_negative_zero : Repr.float_repr (S754_zero true) = "-0.0".
Proof. by_evaluation. Qed.

Example repr_complex : Repr.complex_repr (F64.of_Z 1) (F64.of_decimal (-25) 1) = "(1-2.5j)".
Proof. by_evaluation. Qed.

Example repr_complex_negative_zero : Repr.complex_repr (S754_zero true) F64.one = "(-0+1j)".
Proof. by_evaluation. Qed.

Example ceil_negative_half : F64.ceil (F64.of_decimal (-5) 1) = S754_zero true.
Proof. by_evaluation. Qed.

Example hypot_3_4 : F64.hypot (F64.of_Z 3) (F64.of_Z 4) = F64.of_Z 5.
Proof. by_evaluation. Qed.

Example cmath_sqrt_3_4j : cmath.sqrt (VComplex (F64.of_Z 3) (F64.of_Z 4))
                          = Ok (VComplex (F64.of_Z 2) (F64.of_Z 1)).
Proof. by_evaluation. Qed.

Example cmath_sqrt_below_cut : cmath.sqrt (VComplex (F64.of_Z (-4)) (S754_zero true))
                               = Ok (VComplex F64.pzero (F64.of_Z (-2))).
Proof. by_evaluation. Qed.

Example math_ceil_is_int : math.ceil (VFloat (F64.of_decimal 45 1)) = Ok (VInt 5).
Proof. by_evaluation. Qed.

Example math_ceil_negative : math.ceil (VFloat (F64.of_decimal (-45) 1)) = Ok (VInt (-4)).
Proof. by_evaluation. Qed.

Example math_ceil_infinity :
  math.ceil (VFloat F64.pinf) = raise OverflowError "cannot convert float infinity to integer".
Proof. by_evaluation. Qed.

Example numpy_sqrt_negative : numpy.sqrt (VInt (-1)) = Ok (VFloat64 F64.nan).
Proof. by_evaluation. Qed.

Example float_of_str_spellings :
  float_of_str "-Infinity" = Ok (VFloat (S754_infinity true)) ∧
  float_of_str "NaN" = Ok (VFloat F64.nan) ∧
  float_of_str "+inf" = Ok (VFloat F64.pinf).
Proof. repeat split; by_evaluation. Qed.

Example int_times_float : py_mul (VInt 3) (VFloat (F64.of_decimal 15 1)) = Ok (VFloat (F64.of_decimal 45 1)).
Proof. by_evaluation. Qed.

(** ** Strings *)

Lemma app_cons c (s t : string) : String c s +:+ t = String c (s +:+ t).
Proof. reflexivity. Qed.

Lemma app_nil_r (s : string) : s +:+ "" = s.
Proof. induction s as [|c s IH]; [done|]. by rewrite app_cons, IH. Qed.

Lemma app_assoc (a b c : string) : (a +:+ b) +:+ c = a +:+ (b +:+ c).
Proof. induction a as [|x a IH]; [done|]. by rewrite !app_cons, IH. Qed.

Lemma lines_from_line cur l rest :
  no_newline l = true →
  lines_from cur (l +:+ newline +:+ rest) = (cur +:+ l) :: lines_from "" rest.
Proof.
  revert cur. induction l as [|c l IH]; intros cur Hl.
  - by rewrite app_nil_r.
  - simpl in Hl. apply andb_true_iff in Hl as [Hc Hl].
    apply negb_true_iff, bool_decide_eq_false in Hc.
    rewrite app_cons. cbn [lines_from].
    rewrite decide_False by done. rewrite IH by done.
    by rewrite app_assoc.
Qed.

(** Printing lines and reading the text back gives the same lines. *)
Lemma lines_unlines ls :
  Forall (λ l, no_newline l = true) ls → lines (unlines ls) = ls.
Proof.
  unfold lines. induction 1 as [|l ls Hl _ IH]; [done|].
  cbn [unlines]. rewrite lines_from_line by done. by rewrite IH.
Qed.

(** ** Namespaces: the last import wins *)

Section Namespace.

Implicit Types (g : gmap string value) (x : string) (v : value).

Lemma import_star_cons x v exports g :
  import_star ((x, v) :: exports) g = import_star exports (<[x := v]> g).
Proof. reflexivity. Qed.

(** A name the module does not export keeps its binding. *)
Lemma import_star_keeps exports g x :
  x ∉ exports.*1 → import_star exports g !! x = g !! x.
Proof.
  revert g. induction exports as [|[y w] exports IH]; intros g Hx; [done|].
  rewrite import_star_cons. rewrite fmap_cons in Hx.
  apply not_elem_of_cons in Hx as [Hne Hx].
  rewrite IH by done. by rewrite lookup_insert_ne.
Qed.

(** A name the module exports is bound to the module's object, whatever
    it was bound to. *)
Lemma import_star_rebinds exports g x v :
  NoDup exports.*1 → (x, v) ∈ exports → import_star exports g !! x = Some v.
Proof.
  revert g. induction exports as [|[y w] exports IH]; intros g Hnd Hin.
  - by apply elem_of_nil in Hin.
  - rewrite fmap_cons in Hnd. apply NoDup_cons in Hnd as [Hy Hnd].
    rewrite import_star_cons. apply elem_of_cons in Hin as [Heq | Hin].
    + injection Heq as -> ->. rewrite import_star_keeps by done. apply lookup_insert_eq.
    + by apply IH.
Qed.

End Namespace.

Lemma import_star_app e1 e2 (g : gmap string value) :
  import_star (e1 ++ e2) g = import_star e2 (import_star e1 g).
Proof. unfold import_star. apply foldl_app. Qed.

(** [from m import *] is a left-biased union: the module's table, the
    last binding of a name winning, laid over the namespace. *)
Lemma import_star_union exports (g : gmap string value) :
  import_star exports g = list_to_map (reverse exports) ∪ g.
Proof.
  revert g. induction exports as [|[k v] exports IH]; intros g.
  - cbn. by rewrite (left_id_L ∅ (∪)).
  - rewrite import_star_cons, IH, reverse_cons, list_to_map_app.
    rewrite <- (assoc_L (∪)). f_equal. cbn.
    by rewrite insert_union_singleton_l, insert_empty.
Qed.

(** What a name denotes after an import depends on the namespace before
    it through that name only. *)
Lemma import_star_lookup_local exports (g g' : gmap string value) x :
  g !! x = g' !! x → import_star exports g !! x = import_star exports g' !! x.
Proof. intros H. rewrite !import_star_union, !lookup_union. by rewrite H. Qed.

Lemma import_star_extended exports more (g g' : gmap string value) x :
  x ∉ more.*1 → g !! x = g' !! x →
  import_star (exports ++ more) g !! x = import_star exports g' !! x.
Proof.
  intros Hx Hg. rewrite import_star_app, import_star_keeps by done.
  by apply import_star_lookup_local.
Qed.

(** The pairs depend on the namespace through the four names the script
    reads. *)
Lemma pairs_local (g g' : gmap string value) :
  Forall (λ x, g !! x = g' !! x) names_read → pairs g = pairs g'.
Proof.
  intros H. unfold names_read, function_names in H. cbn [app] in H.
  apply Forall_cons in H as [H1 H]. apply Forall_cons in H as [H2 H].
  apply Forall_cons in H as [H3 H]. apply Forall_cons in H as [H4 _].
  unfold pairs, load_name. by rewrite H1, H2, H3, H4.
Qed.

Lemma exports_NoDup :
  NoDup math.exports.*1 ∧ NoDup numpy.exports.*1 ∧ NoDup cmath.exports.*1.
Proof. repeat split; decide_closed. Qed.

Lemma sqrt_bound_by_cmath : globals_after_imports !! "sqrt" = Some (VFn cmath_sqrt).
Proof.
  unfold globals_after_imports.
  apply import_star_rebinds; [apply exports_NoDup | decide_closed].
Qed.

Lemma isfinite_bound_by_cmath : globals_after_imports !! "isfinite" = Some (VFn cmath_isfinite).
Proof.
  unfold globals_after_imports.
  apply import_star_rebinds; [apply exports_NoDup | decide_closed].
Qed.

(** [cmath] exports no [ceil], so NumPy's stays. *)
Lemma ceil_bound_by_numpy : globals_after_imports !! "ceil" = Some (VFn numpy_ceil).
Proof.
  unfold globals_after_imports. rewrite import_star_keeps by decide_closed.
  apply import_star_rebinds; [apply exports_NoDup | decide_closed].
Qed.

(** ** Every exception of the library functions is an [Exception] *)

Lemma issubclass_Exception c :
  issubclass c Exception = negb (bool_decide (c = BaseException ∨ c = KeyboardInterrupt)).
Proof. by destruct c. Qed.

Lemma checked_Ok {A} (a : A) : checked (Ok a).
Proof. intros e He. discriminate He. Qed.

Lemma checked_Unmodelled {A} : checked (@Unmodelled A).
Proof. intros e He. discriminate He. Qed.

Lemma checked_raise {A} c msg : issubclass c Exception = true → checked (@raise A c msg).
Proof. intros Hc e He. injection He as <-. exact Hc. Qed.

Lemma checked_bind {A B} (m : res A) (f : A → res B) :
  checked m → (∀ a, checked (f a)) → checked (m ≫= f).
Proof.
  intros Hm Hf e. destruct m as [a|e'|]; simpl.
  - apply Hf.
  - intros He. injection He as <-. by apply Hm.
  - discriminate.
Qed.

Create HintDb checked discriminated.
#[local] Hint Resolve checked_Ok checked_Unmodelled checked_raise : checked.

Lemma int_as_double_checked n : checked (int_as_double n).
Proof. unfold int_as_double. destruct (F64.is_inf _); auto with checked. Qed.

Lemma as_double_checked v : checked (as_double v).
Proof. destruct v; simpl; auto using int_as_double_checked with checked. Qed.

Lemma as_complex_checked v : checked (as_complex v).
Proof.
  unfold as_complex.
  destruct v; try (apply checked_bind; [apply as_double_checked|]); auto with checked.
Qed.

#[local] Hint Resolve as_double_checked as_complex_checked : checked.

Lemma math_sqrt_checked v : checked (math.sqrt v).
Proof.
  unfold math.sqrt. apply checked_bind; [auto with checked|]. intros x.
  destruct (_ && _); auto with checked.
Qed.

Lemma int_of_double_checked x : checked (math.int_of_double x).
Proof. unfold math.int_of_double. destruct (F64.trunc_Z x), x; auto with checked. Qed.

Lemma math_ceil_checked v : checked (math.ceil v).
Proof.
  unfold math.ceil.
  destruct v;
    try (apply checked_bind; [apply as_double_checked | intros; apply int_of_double_checked]);
    auto with checked.
Qed.

Lemma math_isfinite_checked v : checked (math.isfinite v).
Proof. unfold math.isfinite. apply checked_bind; auto with checked. Qed.

Lemma cmath_sqrt_checked v : checked (cmath.sqrt v).
Proof.
  unfold cmath.sqrt. apply checked_bind; [auto with checked|]. intros z.
  destruct (cmath.c_sqrt _ _). auto with checked.
Qed.

Lemma cmath_isfinite_checked v : checked (cmath.isfinite v).
Proof. unfold cmath.isfinite. apply checked_bind; auto with checked. Qed.

Lemma numpy_checked v :
  checked (numpy.sqrt v) ∧ checked (numpy.ceil v) ∧ checked (numpy.isfinite v).
Proof.
  destruct v; repeat split; simpl; unfold numpy.no_loop;
    try destruct (numpy.fits_int64 _); auto with checked.
Qed.

Lemma apply_fn_checked f v : checked (apply_fn f v).
Proof.
  destruct f; simpl;
    auto using math_sqrt_checked, math_ceil_checked, math_isfinite_checked,
               cmath_sqrt_checked, cmath_isfinite_checked;
    apply numpy_checked.
Qed.

Lemma call_checked fn v : checked (call fn v).
Proof. destruct fn; simpl; auto using apply_fn_checked with checked. Qed.

Lemma getattr_name_checked v : checked (getattr_name v).
Proof. destruct v; simpl; auto with checked. Qed.

Lemma format_field_checked limit v : checked (format_field limit v).
Proof.
  destruct v; cbn [format_field]; auto with checked.
  destruct (int_str_too_long _ _); auto with checked.
Qed.

Lemma format_field_Ok limit v text : format_field limit v = Ok text → text = format v.
Proof.
  destruct v; cbn [format_field]; try (by intros [= <-]).
  destruct (int_str_too_long _ _); [discriminate|]. by intros [= <-].
Qed.

Lemma fstring_with_checked limit fn num : checked (fstring_with limit fn num).
Proof.
  unfold fstring_with. apply checked_bind; [apply getattr_name_checked|]. intros name.
  apply checked_bind; [apply format_field_checked|]. intros shown.
  apply checked_bind; [apply call_checked|]. intros r.
  apply checked_bind; [apply format_field_checked|]. auto with checked.
Qed.

Lemma fstring_checked fn num : checked (fstring fn num).
Proof. apply fstring_with_checked. Qed.

(** [cmath] takes every number: its two functions raise on function
    objects and on integers too large for a float, and on nothing else. *)
Lemma cmath_sqrt_total v z : as_complex v = Ok z → ∃ re im, cmath.sqrt v = Ok (VComplex re im).
Proof.
  intros Hz. unfold cmath.sqrt. rewrite Hz. cbn [mbind res_bind].
  destruct (cmath.c_sqrt _ _) as [re im]. by exists re, im.
Qed.

Lemma cmath_isfinite_complex re im :
  cmath.isfinite (VComplex re im) = Ok (VBool (F64.is_finite re && F64.is_finite im)).
Proof. reflexivity. Qed.

(** [math.sqrt] of a negative number is a domain error, and the functions of
    [math] refuse complex numbers. *)
Lemma math_sqrt_negative m e :
  math.sqrt (VFloat (S754_finite true m e)) = raise ValueError "math domain error".
Proof. reflexivity. Qed.

Lemma math_refuses_complex re im :
  math.sqrt (VComplex re im) = raise TypeError "must be real number, not complex" ∧
  math.ceil (VComplex re im) = raise TypeError "must be real number, not complex" ∧
  math.isfinite (VComplex re im) = raise TypeError "must be real number, not complex".
Proof. by repeat split. Qed.

(** ** One iteration *)

Lemma loop_body_with_prints limit fn num line out :
  fstring_with limit fn num = Ok line →
  loop_body_with limit (fn, num) out = (Ok (), out +:+ line +:+ newline).
Proof. intros H. unfold loop_body_with, try_except, mbind, M_bind, lift. by rewrite H. Qed.

Lemma loop_body_with_catches limit fn num e out :
  fstring_with limit fn num = Raise e →
  loop_body_with limit (fn, num) out = (Ok (), out +:+ exn_str e +:+ newline).
Proof.
  intros H. unfold loop_body_with, try_except, mbind, M_bind, lift. rewrite H.
  by rewrite (fstring_with_checked _ _ _ _ H).
Qed.

Lemma loop_body_with_unmodelled limit fn num out :
  fstring_with limit fn num = Unmodelled →
  loop_body_with limit (fn, num) out = (Unmodelled, out).
Proof. intros H. unfold loop_body_with, try_except, mbind, M_bind, lift. by rewrite H. Qed.

(** An integer input with more digits than the limit allows: the f-string
    raises while it formats the input, before the function is called, and
    the iteration prints the message of the [ValueError]. *)
Lemma loop_body_with_input_too_long limit fn name n out :
  getattr_name fn = Ok name →
  int_str_too_long limit n = true →
  loop_body_with limit (fn, VInt n) out = (Ok (), out +:+ int_str_error limit +:+ newline).
Proof.
  intros Hn Hl.
  rewrite (loop_body_with_catches limit fn (VInt n) (mk_exn ValueError (int_str_error limit)));
    [reflexivity|].
  unfold fstring_with. rewrite Hn. cbn [mbind res_bind format_field]. by rewrite Hl.
Qed.

(** The lowest limit that can be set, 640: an integer of 640 digits is
    within it, one of 641 digits is not;
    and with no limit the latter is printed. *)
Lemma format_field_at_the_limit :
  format_field 640 (VInt (10 ^ 640 - 1)) = Ok (pretty (10 ^ 640 - 1)%Z) ∧
  format_field 640 (VInt (10 ^ 640))
  = raise ValueError ("Exceeds the limit (640 digits) for integer string conversion; "
                      +:+ "use sys.set_int_max_str_digits() to increase the limit") ∧
  format_field 640 (VInt (- 10 ^ 639)) = Ok (pretty (- 10 ^ 639)%Z) ∧
  format_field 0 (VInt (10 ^ 640)) = Ok (pretty (10 ^ 640)%Z).
Proof. repeat split; by_evaluation. Qed.

Lemma loop_body_prints fn num line out :
  fstring fn num = Ok line → loop_body (fn, num) out = (Ok (), out +:+ line +:+ newline).
Proof. apply loop_body_with_prints. Qed.

Lemma loop_body_catches fn num e out :
  fstring fn num = Raise e → loop_body (fn, num) out = (Ok (), out +:+ exn_str e +:+ newline).
Proof. apply loop_body_with_catches. Qed.

Lemma loop_body_unmodelled fn num out :
  fstring fn num = Unmodelled → loop_body (fn, num) out = (Unmodelled, out).
Proof. apply loop_body_with_unmodelled. Qed.

Lemma loop_body_line p l out :
  line_of p = Some l → loop_body p out = (Ok (), out +:+ l +:+ newline).
Proof.
  destruct p as [fn num]. unfold line_of. cbn [fst snd].
  destruct (fstring fn num) as [line|e|] eqn:H.
  - intros [= <-]. by apply loop_body_prints.
  - destruct (isinstance e Exception); [|done]. intros [= <-]. by apply loop_body_catches.
  - done.
Qed.

Lemma fstring_with_format limit fn num name shown r result :
  getattr_name fn = Ok name → format_field limit num = Ok shown →
  call fn num = Ok r → format_field limit r = Ok result →
  fstring_with limit fn num = Ok (name +:+ "(" +:+ shown +:+ ") -> " +:+ result).
Proof.
  intros Hn Hs Hr Ht. unfold fstring_with. rewrite Hn. cbn [mbind res_bind].
  rewrite Hs. cbn [mbind res_bind]. rewrite Hr. cbn [mbind res_bind]. by rewrite Ht.
Qed.

Lemma fstring_format fn num name r :
  getattr_name fn = Ok name →
  format_field DEFAULT_MAX_STR_DIGITS num = Ok (format num) →
  call fn num = Ok r →
  format_field DEFAULT_MAX_STR_DIGITS r = Ok (format r) →
  fstring fn num = Ok (name +:+ "(" +:+ format num +:+ ") -> " +:+ format r).
Proof. apply fstring_with_format. Qed.

(** ** The whole loop *)

(** One line per pair, in the order of the pairs, whichever iterations
    print a result and whichever an error message. *)
Lemma for_in_lines ps ls out :
  Forall2 (λ p l, line_of p = Some l) ps ls →
  for_in ps loop_body out = (Ok (), out +:+ unlines ls).
Proof.
  intros H. revert out. induction H as [|p l ps ls Hp _ IH]; intros out; simpl.
  - unfold mret, M_ret. by rewrite app_nil_r.
  - unfold mbind, M_bind. rewrite (loop_body_line _ _ _ Hp). rewrite IH.
    f_equal. by rewrite <- !app_assoc.
Qed.

Lemma for_in_lines_fresh ps ls :
  Forall2 (λ p l, line_of p = Some l) ps ls →
  for_in ps loop_body "" = (Ok (), unlines ls).
Proof. intros H. exact (for_in_lines ps ls "" H). Qed.

(** The loop ends normally after one step per pair and the step that leaves
    it, unless it meets library behaviour that is not modelled: no
    exception comes out of it. *)
Lemma for_in_total ps out :
  (∃ out', for_in ps loop_body out = (Ok (), out') ∧
           nsteps step (S (length ps)) (Running ps out) (Exited out')) ∨
  (∃ out', for_in ps loop_body out = (Unmodelled, out')).
Proof.
  revert out. induction ps as [|[fn num] ps IH]; intros out.
  - left. exists out. split; [done|]. apply nsteps_once. constructor.
  - cbn [for_in]. unfold mbind, M_bind.
    destruct (fstring fn num) as [line|e|] eqn:Hf.
    + rewrite (loop_body_prints _ _ _ _ Hf).
      destruct (IH (out +:+ line +:+ newline)) as [(out' & -> & Hs) | (out' & ->)].
      * left. exists out'. split; [done|]. eapply nsteps_l; [by apply step_print | done].
      * right. by exists out'.
    + rewrite (loop_body_catches _ _ _ _ Hf).
      pose proof (fstring_checked _ _ _ Hf) as He.
      destruct (IH (out +:+ exn_str e +:+ newline)) as [(out' & -> & Hs) | (out' & ->)].
      * left. exists out'. split; [done|]. eapply nsteps_l; [by apply step_except | done].
      * right. by exists out'.
    + right. exists out. by rewrite (loop_body_unmodelled _ _ _ Hf).
Qed.

Lemma for_in_never_raises ps out : raises (for_in ps loop_body out).1 = false.
Proof. by destruct (for_in_total ps out) as [(out' & -> & _) | (out' & ->)]. Qed.

(** ** Determinism of the transition system *)

Lemma step_deterministic c c1 c2 : step c c1 → step c c2 → c1 = c2.
Proof. intros H1 H2. destruct H1; inversion H2; subst; congruence. Qed.

Lemma final_stuck c c' : final c = true → ¬ step c c'.
Proof. intros Hf Hs. destruct Hs; discriminate Hf. Qed.

Lemma rtc_step_final c c1 c2 :
  rtc step c c1 → final c1 = true → rtc step c c2 → final c2 = true → c1 = c2.
Proof.
  intros H1. revert c2. induction H1 as [c|c c' c1 Hs _ IH]; intros c2 Hf1 H2 Hf2.
  - inversion H2 as [|? c' ? Hs]; subst; [done|]. by apply final_stuck in Hs.
  - inversion H2 as [|? c'' ? Hs' H2']; subst.
    + by apply final_stuck in Hs.
    + rewrite (step_deterministic _ _ _ Hs Hs') in IH. by apply IH.
Qed.

(** ** What the script computes *)

Lemma float_inf : float_of_str "inf" = Ok (VFloat F64.pinf).
Proof. by_evaluation. Qed.

(** [inf * 1j]: the float becomes [inf + 0j], and the real part of the
    product is [inf * 0.0 - 0.0 * 1.0], which is NaN. *)
Lemma inf_times_1j s :
  py_mul (VFloat (S754_infinity s)) ONE_J = Ok (VComplex F64.nan (S754_infinity s)).
Proof. destruct s; by_evaluation. Qed.

(** Reading a global of the script after [inf] has been assigned. *)
Lemma load_name_after_assignment (g : gmap string value) x v w :
  g !! x = Some v → load_name (<["inf" := w]> g) x = Ok (if decide (x = "inf") then w else v).
Proof.
  intros Hx. unfold load_name. destruct (decide (x = "inf")) as [->|Hne].
  - by rewrite lookup_insert_eq.
  - by rewrite lookup_insert_ne, Hx.
Qed.

Lemma script_pairs_eq : script_pairs = Ok [PAIR_1; PAIR_2; PAIR_3].
Proof.
  unfold script_pairs, script_pairs_in.
  replace (rebinds_builtin globals_after_imports) with false by by_evaluation.
  rewrite float_inf. cbn [mbind res_bind]. unfold pairs.
  rewrite (load_name_after_assignment _ _ _ _ sqrt_bound_by_cmath). cbn [mbind res_bind].
  rewrite (load_name_after_assignment _ _ _ _ ceil_bound_by_numpy). cbn [mbind res_bind].
  rewrite (load_name_after_assignment _ _ _ _ isfinite_bound_by_cmath). cbn [mbind res_bind].
  unfold load_name at 1. rewrite lookup_insert_eq. cbn [mbind res_bind].
  unfold F64.pinf. rewrite inf_times_1j. reflexivity.
Qed.

Lemma nth_pair_eq i : nth_pair i = [PAIR_1; PAIR_2; PAIR_3] !! i.
Proof. unfold nth_pair. by rewrite script_pairs_eq. Qed.

Lemma calls_return :
  call (VFn cmath_sqrt) (VInt (-1)) = Ok ONE_J ∧
  call (VFn numpy_ceil) (VFloat (F64.of_decimal 45 1)) = Ok (VFloat64 (F64.of_Z 5)) ∧
  call (VFn cmath_isfinite) (VComplex F64.nan F64.pinf) = Ok (VBool false).
Proof. repeat split; by_evaluation. Qed.

Lemma fstrings :
  Forall2 (λ p l, fstring p.1 p.2 = Ok l) [PAIR_1; PAIR_2; PAIR_3] [LINE_1; LINE_2; LINE_3].
Proof.
  destruct calls_return as (H1 & H2 & H3).
  constructor; [|constructor; [|constructor; [|constructor]]];
    cbn [fst snd PAIR_1 PAIR_2 PAIR_3].
  - rewrite (fstring_format (VFn cmath_sqrt) (VInt (-1)) "sqrt" ONE_J);
      [by_evaluation | reflexivity | by_evaluation | exact H1 | reflexivity].
  - rewrite (fstring_format (VFn numpy_ceil) (VFloat (F64.of_decimal 45 1)) "ceil"
               (VFloat64 (F64.of_Z 5)));
      [by_evaluation | reflexivity | reflexivity | exact H2 | reflexivity].
  - rewrite (fstring_format (VFn cmath_isfinite) (VComplex F64.nan F64.pinf) "isfinite"
               (VBool false));
      [by_evaluation | reflexivity | reflexivity | exact H3 | reflexivity].
Qed.

Lemma line_of_pairs :
  Forall2 (λ p l, line_of p = Some l) [PAIR_1; PAIR_2; PAIR_3] [LINE_1; LINE_2; LINE_3].
Proof.
  eapply Forall2_impl; [apply fstrings|]. intros p l H. unfold line_of. by rewrite H.
Qed.

Lemma run_eq : run = (Ok (), unlines [LINE_1; LINE_2; LINE_3]).
Proof.
  unfold run, main. unfold mbind at 1. unfold M_bind, lift. rewrite script_pairs_eq.
  exact (for_in_lines_fresh _ _ line_of_pairs).
Qed.

Lemma stdout_eq : stdout = unlines [LINE_1; LINE_2; LINE_3].
Proof. unfold stdout. by rewrite run_eq. Qed.

Lemma lines_stdout : lines stdout = [LINE_1; LINE_2; LINE_3].
Proof. rewrite stdout_eq. apply lines_unlines. by repeat constructor. Qed.

(** The three lines the specification describes are those of the same loop
    with the functions of [math], that is, of the script with [math]
    imported last: a domain error, the integer ceiling, a type error. *)
Lemma loop_with_the_functions_of_math :
  for_in [(VFn math_sqrt, VInt (-1));
          (VFn math_ceil, VFloat (F64.of_decimal 45 1));
          (VFn math_isfinite, VComplex F64.nan F64.pinf)] loop_body ""
  = (Ok (), unlines ["math domain error"; "ceil(4.5) -> 5"; "must be real number, not complex"]).
Proof.
  apply for_in_lines_fresh.
  constructor; [by_evaluation|]. constructor; [by_evaluation|].
  constructor; [by_evaluation|]. constructor.
Qed.

(** The namespace of an environment that keeps the names the script reads
    binds each of them as the three modelled tables do. *)
Lemma globals_in_lookup ρ x :
  x ∉ (more_math ρ).*1 → x ∉ (more_numpy ρ).*1 → x ∉ (more_cmath ρ).*1 →
  globals_in ρ !! x = globals_after_imports !! x.
Proof.
  intros Hm Hn Hc. unfold globals_in, globals_after_imports.
  apply import_star_extended; [done|].
  apply import_star_extended; [done|].
  by apply import_star_extended.
Qed.

Lemma script_pairs_in_env ρ :
  keeps_names_read ρ → script_pairs_in (globals_in ρ) = script_pairs.
Proof.
  intros H. apply Forall_app in H as [Hfn Hbi].
  assert (∀ x, x ∈ function_names ++ builtins_read →
               globals_in ρ !! x = globals_after_imports !! x) as Hsame.
  { intros x Hx. apply elem_of_app in Hx as [Hx|Hx].
    - destruct (proj1 (Forall_forall _ _) Hfn x Hx) as (? & ? & ?). by apply globals_in_lookup.
    - destruct (proj1 (Forall_forall _ _) Hbi x Hx) as (? & ? & ?). by apply globals_in_lookup. }
  unfold script_pairs, script_pairs_in.
  assert (rebinds_builtin (globals_in ρ) = rebinds_builtin globals_after_imports) as ->.
  { unfold rebinds_builtin, builtins_read. cbn [existsb].
    rewrite !Hsame by (unfold function_names, builtins_read; set_solver). done. }
  destruct (rebinds_builtin globals_after_imports); [done|].
  rewrite float_inf. cbn [mbind res_bind]. apply pairs_local.
  unfold names_read. apply Forall_app. split.
  - apply Forall_forall. intros x Hx.
    destruct (decide (x = "inf")) as [->|Hne]; [by rewrite !lookup_insert_eq|].
    rewrite !lookup_insert_ne by done. apply Hsame. apply elem_of_app. by left.
  - constructor; [|constructor]. by rewrite !lookup_insert_eq.
Qed.

(** None of the values the script formats is an integer long enough for the
    limit to matter: its three lines are the same under every setting. *)
Lemma fstrings_with limit :
  Forall2 (λ p l, fstring_with limit p.1 p.2 = Ok l)
          [PAIR_1; PAIR_2; PAIR_3] [LINE_1; LINE_2; LINE_3].
Proof.
  destruct calls_return as (H1 & H2 & H3).
  constructor; [|constructor; [|constructor; [|constructor]]];
    cbn [fst snd PAIR_1 PAIR_2 PAIR_3].
  - rewrite (fstring_with_format limit (VFn cmath_sqrt) (VInt (-1)) "sqrt" "-1" ONE_J "1j");
      [reflexivity | reflexivity | reflexivity | exact H1 | by_evaluation].
  - rewrite (fstring_with_format limit (VFn numpy_ceil) (VFloat (F64.of_decimal 45 1)) "ceil"
               "4.5" (VFloat64 (F64.of_Z 5)) "5.0");
      [reflexivity | reflexivity | by_evaluation | exact H2 | by_evaluation].
  - rewrite (fstring_with_format limit (VFn cmath_isfinite) (VComplex F64.nan F64.pinf)
               "isfinite" "(nan+infj)" (VBool false) "False");
      [reflexivity | reflexivity | by_evaluation | exact H3 | reflexivity].
Qed.

Lemma main_in_eq ρ :
  keeps_names_read ρ → main_in ρ "" = (Ok (), unlines [LINE_1; LINE_2; LINE_3]).
Proof.
  intros H. unfold main_in. unfold mbind at 1. unfold M_bind, lift.
  rewrite (script_pairs_in_env ρ H), script_pairs_eq.
  pose proof (fstrings_with (max_str_digits ρ)) as Hl.
  apply Forall2_cons in Hl as [H1 Hl]. apply Forall2_cons in Hl as [H2 Hl].
  apply Forall2_cons in Hl as [H3 _].
  cbn [for_in]. unfold mbind, M_bind, PAIR_1, PAIR_2, PAIR_3.
  rewrite (loop_body_with_prints _ _ _ _ _ H1), (loop_body_with_prints _ _ _ _ _ H2),
    (loop_body_with_prints _ _ _ _ _ H3).
  reflexivity.
Qed.

(** The function and the relation agree on the run of the script. *)
Lemma run_executes : executes_to (Exited stdout).
Proof.
  exists [PAIR_1; PAIR_2; PAIR_3]. split; [apply script_pairs_eq|]. split; [|done].
  destruct (for_in_total [PAIR_1; PAIR_2; PAIR_3] "") as [(out' & Hrun & Hsteps) | (out' & Hrun)];
    rewrite (for_in_lines_fresh _ _ line_of_pairs) in Hrun; [|discriminate Hrun].
  injection Hrun as <-. rewrite stdout_eq. by eapply rtc_nsteps_2.
Qed.

Lemma fstring_Ok_inv fn num l :
  fstring fn num = Ok l →
  ∃ name r, getattr_name fn = Ok name ∧ call fn num = Ok r ∧
            l = name +:+ "(" +:+ format num +:+ ") -> " +:+ format r.
Proof.
  unfold fstring, fstring_with.
  destruct (getattr_name fn) as [name|e|]; cbn [mbind res_bind]; [|done..].
  destruct (format_field _ num) as [shown|e|] eqn:Hs; cbn [mbind res_bind]; [|done..].
  destruct (call fn num) as [r|e|]; cbn [mbind res_bind]; [|done..].
  destruct (format_field _ r) as [result|e|] eqn:Ht; cbn [mbind res_bind]; [|done..].
  intros [= <-]. apply format_field_Ok in Hs as ->. apply format_field_Ok in Ht as ->.
  by exists name, r.
Qed.

(** * The claims of the specification *)

(** ** C1: the square root of [-1] *)

(** C1 as stated fails.  The first pair of the loop is [cmath.sqrt] with
    [-1]: neither the call nor the formatting of its line raises, so no
    error is caught for this pair, and the first line of the output is a
    result line and not an error message: the run does not report a
    domain error, nor any other error, for the first pair. *)
Lemma C1_first_pair_raises_nothing :
  nth_pair 0 = Some (VFn cmath_sqrt, VInt (-1)) ∧
  raises (call (VFn cmath_sqrt) (VInt (-1))) = false ∧
  raises (fstring (VFn cmath_sqrt) (VInt (-1))) = false ∧
  lines stdout !! 0%nat = Some "sqrt(-1) -> 1j" ∧
  ¬ reports_error 0 ValueError ∧
  (∀ cls, ¬ reports_error 0 cls).
Proof.
  destruct calls_return as (Hcall & _).
  pose proof (Forall2_lookup_lr _ _ _ 0%nat _ _ fstrings eq_refl eq_refl) as Hline.
  cbn [fst snd PAIR_1] in Hline.
  assert (∀ cls, ¬ reports_error 0 cls) as Hno.
  { intros cls (fn & num & e & Hp & Hraise & _).
    rewrite nth_pair_eq in Hp. injection Hp as <- <-.
    rewrite Hcall in Hraise. discriminate Hraise. }
  rewrite nth_pair_eq, lines_stdout.
  split; [reflexivity|]. split; [by rewrite Hcall|]. split; [by rewrite Hline|].
  split; [reflexivity|]. split; [apply Hno | exact Hno].
Qed.

(** C1 (amended): for the first pair, the name [sqrt] denotes the complex
    square root of [cmath], not the real one of [math] (which does raise
    its domain error on [-1]); applied to [-1] it raises no error and
    returns [1j], and the program prints exactly the non-empty line
    [sqrt(-1) -> 1j] for the pair and ends normally. *)
Theorem C1_first_pair_prints_complex_root :
  nth_pair 0 = Some (VFn cmath_sqrt, VInt (-1)) ∧
  call (VFn math_sqrt) (VInt (-1)) = raise ValueError "math domain error" ∧
  call (VFn cmath_sqrt) (VInt (-1)) = Ok (VComplex F64.pzero F64.one) ∧
  lines stdout !! 0%nat = Some "sqrt(-1) -> 1j" ∧
  run.1 = Ok ().
Proof.
  rewrite nth_pair_eq, lines_stdout, run_eq. destruct calls_return as (Hcall & _).
  split; [reflexivity|]. split; [by_evaluation|]. split; [exact Hcall|].
  split; reflexivity.
Qed.

(** ** C2: the ceiling of [4.5] *)

(** C2 as stated fails.  The second pair is [numpy.ceil] with [4.5]: the
    result is the [numpy.float64] number [5.0], not the integer [5], and
    the second line of the output is [ceil(4.5) -> 5.0], which is not the
    line [ceil(4.5) -> 5]. *)
Lemma C2_ceiling_is_printed_as_a_float :
  nth_pair 1 = Some (VFn numpy_ceil, VFloat (F64.of_decimal 45 1)) ∧
  call (VFn numpy_ceil) (VFloat (F64.of_decimal 45 1)) = Ok (VFloat64 (F64.of_Z 5)) ∧
  lines stdout !! 1%nat = Some "ceil(4.5) -> 5.0" ∧
  bool_decide (lines stdout !! 1%nat = Some "ceil(4.5) -> 5") = false ∧
  ¬ reports_int 1 5 "ceil(4.5) -> 5".
Proof.
  destruct calls_return as (_ & Hcall & _).
  assert (¬ reports_int 1 5 "ceil(4.5) -> 5") as Hno.
  { intros (fn & num & _ & _ & Hline). rewrite lines_stdout in Hline. discriminate Hline. }
  rewrite nth_pair_eq, lines_stdout.
  split; [reflexivity|]. split; [exact Hcall|]. split; [reflexivity|].
  split; [|exact Hno]. apply bool_decide_eq_false. discriminate.
Qed.

(** C2 (amended): for the second pair, the name [ceil] denotes NumPy's
    ceiling ([cmath] has none, so the import of [cmath] leaves it); applied
    to [4.5] it succeeds with the floating-point result [5.0], and the
    program prints exactly the line [ceil(4.5) -> 5.0] for the pair. *)
Theorem C2_second_pair_prints_float_ceiling :
  globals_after_imports !! "ceil" = Some (VFn numpy_ceil) ∧
  nth_pair 1 = Some (VFn numpy_ceil, VFloat (F64.of_decimal 45 1)) ∧
  call (VFn numpy_ceil) (VFloat (F64.of_decimal 45 1)) = Ok (VFloat64 (F64.of_Z 5)) ∧
  format (VFloat64 (F64.of_Z 5)) = "5.0" ∧
  lines stdout !! 1%nat = Some "ceil(4.5) -> 5.0".
Proof.
  rewrite nth_pair_eq, lines_stdout. destruct calls_return as (_ & Hcall & _).
  split; [apply ceil_bound_by_numpy|]. split; [reflexivity|]. split; [exact Hcall|].
  split; [by_evaluation | reflexivity].
Qed.

(** ** C3: the finiteness of [inf * 1j] *)

(** C3 as stated fails.  The third pair is [cmath.isfinite] with the
    complex number [nan+infj]: the function takes complex numbers, neither
    the call nor the formatting of its line raises, and the third line of
    the output is a result line and not an error message: the run does not
    report a type error, nor any other error, for the third pair. *)
Lemma C3_third_pair_raises_nothing :
  nth_pair 2 = Some (VFn cmath_isfinite, VComplex F64.nan F64.pinf) ∧
  raises (call (VFn cmath_isfinite) (VComplex F64.nan F64.pinf)) = false ∧
  raises (fstring (VFn cmath_isfinite) (VComplex F64.nan F64.pinf)) = false ∧
  lines stdout !! 2%nat = Some "isfinite((nan+infj)) -> False" ∧
  ¬ reports_error 2 TypeError ∧
  (∀ cls, ¬ reports_error 2 cls).
Proof.
  destruct calls_return as (_ & _ & Hcall).
  pose proof (Forall2_lookup_lr _ _ _ 2%nat _ _ fstrings eq_refl eq_refl) as Hline.
  cbn [fst snd PAIR_3] in Hline.
  assert (∀ cls, ¬ reports_error 2 cls) as Hno.
  { intros cls (fn & num & e & Hp & Hraise & _).
    rewrite nth_pair_eq in Hp. injection Hp as <- <-.
    rewrite Hcall in Hraise. discriminate Hraise. }
  rewrite nth_pair_eq, lines_stdout.
  split; [reflexivity|]. split; [by rewrite Hcall|]. split; [by rewrite Hline|].
  split; [reflexivity|]. split; [apply Hno | exact Hno].
Qed.

(** C3 (amended): for the third pair, the name [isfinite] denotes the
    finiteness check of [cmath], which accepts complex input (the one of
    [math] does refuse it with a type error); applied to
    [inf * 1j] it raises no error and returns [False], and the program
    prints exactly the non-empty line [isfinite((nan+infj)) -> False] for
    the pair and ends normally. *)
Theorem C3_third_pair_prints_False :
  nth_pair 2 = Some (VFn cmath_isfinite, VComplex F64.nan F64.pinf) ∧
  call (VFn math_isfinite) (VComplex F64.nan F64.pinf)
    = raise TypeError "must be real number, not complex" ∧
  call (VFn cmath_isfinite) (VComplex F64.nan F64.pinf) = Ok (VBool false) ∧
  lines stdout !! 2%nat = Some "isfinite((nan+infj)) -> False" ∧
  run.1 = Ok ().
Proof.
  rewrite nth_pair_eq, lines_stdout, run_eq. destruct calls_return as (_ & _ & Hcall).
  split; [reflexivity|]. split; [apply math_refuses_complex|]. split; [exact Hcall|].
  split; reflexivity.
Qed.

(** ** C4: three lines, one per pair, in order *)

(** C4: the run writes exactly three lines; the [i]-th line is what the
    iteration for the [i]-th pair prints, the pairs being [sqrt] with
    [-1], [ceil] with [4.5] and [isfinite] with [inf * 1j] in this order;
    and nothing else is written.  This does not depend on which
    iterations succeed: for any list of pairs the loop writes the line of
    each pair, result or error message, in the order of the list. *)
Theorem C4_three_lines_in_pairing_order :
  (∃ ps, script_pairs = Ok ps ∧
         Forall2 (λ p name, getattr_name p.1 = Ok name) ps ["sqrt"; "ceil"; "isfinite"] ∧
         ps.*2 = [VInt (-1); VFloat (F64.of_decimal 45 1); VComplex F64.nan F64.pinf] ∧
         length (lines stdout) = 3%nat ∧
         Forall2 (λ p l, line_of p = Some l) ps (lines stdout) ∧
         run = (Ok (), unlines (lines stdout))) ∧
  (∀ ps ls out,
     Forall2 (λ p l, line_of p = Some l) ps ls →
     for_in ps loop_body out = (Ok (), out +:+ unlines ls)).
Proof.
  split; [|apply for_in_lines].
  exists [PAIR_1; PAIR_2; PAIR_3]. rewrite lines_stdout.
  split; [apply script_pairs_eq|].
  split; [by repeat constructor|].
  split; [reflexivity|]. split; [reflexivity|].
  split; [apply line_of_pairs | apply run_eq].
Qed.

(** The general part of C4 at a pair that fails and a pair that succeeds:
    were [sqrt] and [ceil] still those of [math], the loop would write the
    message of the domain error and then the line of the ceiling. *)
Lemma C4_three_lines_in_pairing_order_witness :
  Forall2 (λ p l, line_of p = Some l)
    [(VFn math_sqrt, VInt (-1)); (VFn math_ceil, VFloat (F64.of_decimal 45 1))]
    ["math domain error"; "ceil(4.5) -> 5"] ∧
  for_in [(VFn math_sqrt, VInt (-1)); (VFn math_ceil, VFloat (F64.of_decimal 45 1))] loop_body ""
  = (Ok (), "" +:+ unlines ["math domain error"; "ceil(4.5) -> 5"]).
Proof.
  assert (Forall2 (λ p l, line_of p = Some l)
            [(VFn math_sqrt, VInt (-1)); (VFn math_ceil, VFloat (F64.of_decimal 45 1))]
            ["math domain error"; "ceil(4.5) -> 5"]) as H.
  { constructor; [by_evaluation|]. constructor; [by_evaluation|]. constructor. }
  split; [exact H|].
  exact (proj2 C4_three_lines_in_pairing_order _ _ "" H).
Defined.

(** ** C5: no error leaves the loop *)

(** C5: whatever exception the body of the [try] raises, the handler
    catches it at that iteration and prints its message; no exception
    comes out of the loop, for any pairs and any output so far; and the
    run of the script ends normally, after one iteration for each of its
    three pairs. *)
Theorem C5_errors_are_caught_and_the_run_completes :
  (∀ fn num e out,
     fstring fn num = Raise e →
     loop_body (fn, num) out = (Ok (), out +:+ exn_str e +:+ newline)) ∧
  (∀ ps out, raises (for_in ps loop_body out).1 = false) ∧
  run.1 = Ok () ∧
  (∃ ps, script_pairs = Ok ps ∧ length ps = 3%nat ∧
         nsteps step 4 (Running ps "") (Exited stdout)).
Proof.
  split; [apply loop_body_catches|]. split; [apply for_in_never_raises|].
  split; [by rewrite run_eq|].
  exists [PAIR_1; PAIR_2; PAIR_3]. split; [apply script_pairs_eq|]. split; [reflexivity|].
  destruct (for_in_total [PAIR_1; PAIR_2; PAIR_3] "") as [(out' & Hrun & Hsteps) | (out' & Hrun)];
    rewrite (for_in_lines_fresh _ _ line_of_pairs) in Hrun; [|discriminate Hrun].
  injection Hrun as <-. rewrite stdout_eq. exact Hsteps.
Qed.

(** The first part of C5 at a call that does raise: [math.sqrt] on [-1]. *)
Lemma C5_errors_are_caught_and_the_run_completes_witness :
  fstring (VFn math_sqrt) (VInt (-1)) = Raise (mk_exn ValueError "math domain error") ∧
  loop_body (VFn math_sqrt, VInt (-1)) ""
  = (Ok (), "" +:+ exn_str (mk_exn ValueError "math domain error") +:+ newline).
Proof.
  split; [by_evaluation|].
  apply (proj1 C5_errors_are_caught_and_the_run_completes). by_evaluation.
Defined.

(** ** C6: determinism *)

(** Any two complete executions of the transition system end in the same
    configuration. *)
Lemma executions_agree c1 c2 :
  executes_to c1 → executes_to c2 → c1 = c2.
Proof.
  intros (ps1 & Hp1 & Hs1 & Hf1) (ps2 & Hp2 & Hs2 & Hf2).
  rewrite Hp1 in Hp2. injection Hp2 as <-.
  exact (rtc_step_final _ _ _ Hs1 Hf1 Hs2 Hf2).
Qed.

(** C6: the script reads no input, so what one run can find different from
    another is its environment: the interpreter's setting for the limit on
    the text of integers, and what else the installed releases of the
    three modules export.  Whatever the two environments are, as long as
    the further exports leave alone the names the script reads, the two
    runs end in the same way with the same text on standard output, which
    is the text of [run]. *)
Theorem C6_output_is_independent_of_the_environment ρ1 ρ2 :
  keeps_names_read ρ1 → keeps_names_read ρ2 →
  main_in ρ1 "" = main_in ρ2 "" ∧
  (main_in ρ1 "").2 = stdout ∧ (main_in ρ2 "").2 = stdout.
Proof.
  intros H1 H2. rewrite (main_in_eq ρ1 H1), (main_in_eq ρ2 H2), stdout_eq.
  by repeat split.
Qed.

(** Two runs that differ in both respects: the default limit and no further
    export, no limit at all and further exports in each module. *)
Lemma C6_output_is_independent_of_the_environment_witness :
  keeps_names_read (mk_env DEFAULT_MAX_STR_DIGITS [] [] []) ∧
  keeps_names_read (mk_env 0 OTHER_EXPORTS OTHER_EXPORTS OTHER_EXPORTS) ∧
  (main_in (mk_env DEFAULT_MAX_STR_DIGITS [] [] []) ""
   = main_in (mk_env 0 OTHER_EXPORTS OTHER_EXPORTS OTHER_EXPORTS) "" ∧
   (main_in (mk_env DEFAULT_MAX_STR_DIGITS [] [] []) "").2 = stdout ∧
   (main_in (mk_env 0 OTHER_EXPORTS OTHER_EXPORTS OTHER_EXPORTS) "").2 = stdout).
Proof.
  assert (keeps_names_read (mk_env DEFAULT_MAX_STR_DIGITS [] [] [])) as H1.
  { unfold keeps_names_read. decide_closed. }
  assert (keeps_names_read (mk_env 0 OTHER_EXPORTS OTHER_EXPORTS OTHER_EXPORTS)) as H2.
  { unfold keeps_names_read. decide_closed. }
  split; [exact H1|]. split; [exact H2|].
  exact (C6_output_is_independent_of_the_environment _ _ H1 H2).
Defined.

(** ** C7: the format of a result line *)

(** C7: an iteration whose f-string is evaluated to the end (the name of
    the function is found, the input is turned into text, the call
    returns, the result is turned into text) prints exactly
    [name(input) -> result], where the two texts are those of [str]; this
    under any limit on the text of integers.  For the three pairs of the
    script, whose calls all succeed, the texts are [-1], [4.5] and
    [(nan+infj)] for the inputs and [1j], [5.0] and [False] for the
    results, and the lines printed are the three lines so formed. *)
Theorem C7_success_line_format :
  (∀ limit fn num name shown r result out,
     getattr_name fn = Ok name →
     format_field limit num = Ok shown →
     call fn num = Ok r →
     format_field limit r = Ok result →
     loop_body_with limit (fn, num) out
     = (Ok (), out +:+ (name +:+ "(" +:+ shown +:+ ") -> " +:+ result) +:+ newline) ∧
     shown = format num ∧ result = format r) ∧
  (∃ ps, script_pairs = Ok ps ∧
         Forall2 (λ p name, getattr_name p.1 = Ok name) ps ["sqrt"; "ceil"; "isfinite"] ∧
         Forall2 (λ p shown, format_field DEFAULT_MAX_STR_DIGITS p.2 = Ok shown)
                 ps ["-1"; "4.5"; "(nan+infj)"] ∧
         Forall2 (λ p result, ∃ r, call p.1 p.2 = Ok r ∧
                                   format_field DEFAULT_MAX_STR_DIGITS r = Ok result)
                 ps ["1j"; "5.0"; "False"] ∧
         lines stdout = ["sqrt(-1) -> 1j"; "ceil(4.5) -> 5.0";
                         "isfinite((nan+infj)) -> False"]).
Proof.
  split.
  - intros limit fn num name shown r result out Hn Hs Hr Ht.
    split; [|split; by eapply format_field_Ok].
    apply loop_body_with_prints. exact (fstring_with_format _ _ _ _ _ _ _ Hn Hs Hr Ht).
  - destruct calls_return as (H1 & H2 & H3).
    exists [PAIR_1; PAIR_2; PAIR_3]. split; [apply script_pairs_eq|].
    split; [repeat constructor|].
    split; [repeat constructor; by_evaluation|].
    split; [|apply lines_stdout].
    constructor; [exists ONE_J; split; [exact H1 | by_evaluation]|].
    constructor; [exists (VFloat64 (F64.of_Z 5)); split; [exact H2 | by_evaluation]|].
    constructor; [exists (VBool false); split; [exact H3 | reflexivity]|]. constructor.
Qed.

(** The general part of C7 at a pair the script would have with the
    functions of [math]: the line is [ceil(4.5) -> 5]. *)
Lemma C7_success_line_format_witness :
  getattr_name (VFn math_ceil) = Ok "ceil" ∧
  format_field DEFAULT_MAX_STR_DIGITS (VFloat (F64.of_decimal 45 1)) = Ok "4.5" ∧
  call (VFn math_ceil) (VFloat (F64.of_decimal 45 1)) = Ok (VInt 5) ∧
  format_field DEFAULT_MAX_STR_DIGITS (VInt 5) = Ok "5" ∧
  (loop_body_with DEFAULT_MAX_STR_DIGITS (VFn math_ceil, VFloat (F64.of_decimal 45 1)) ""
   = (Ok (), "" +:+ ("ceil" +:+ "(" +:+ "4.5" +:+ ") -> " +:+ "5") +:+ newline) ∧
   "4.5" = format (VFloat (F64.of_decimal 45 1)) ∧ "5" = format (VInt 5)).
Proof.
  split; [reflexivity|]. split; [by_evaluation|]. split; [by_evaluation|].
  split; [by_evaluation|].
  apply (proj1 C7_success_line_format); [reflexivity | by_evaluation.. ].
Defined.

(** ** C8: the handler is never entered *)

(** C8: in the run of the script none of the three calls raises, and the
    body of the [try] completes for each pair, so the handler is not
    entered; each of the three lines of the output has the form
    [name(input) -> result] for its pair. *)
Theorem C8_no_invocation_raises :
  ∃ ps, script_pairs = Ok ps ∧ length ps = 3%nat ∧
        Forall (λ p, raises (call p.1 p.2) = false ∧ raises (fstring p.1 p.2) = false) ps ∧
        Forall2 (λ p l, ∃ name r,
                   getattr_name p.1 = Ok name ∧ call p.1 p.2 = Ok r ∧
                   l = name +:+ "(" +:+ format p.2 +:+ ") -> " +:+ format r)
                ps (lines stdout).
Proof.
  exists [PAIR_1; PAIR_2; PAIR_3]. rewrite lines_stdout.
  split; [apply script_pairs_eq|]. split; [reflexivity|].
  assert (Forall2 (λ p l, ∃ name r,
                     getattr_name p.1 = Ok name ∧ call p.1 p.2 = Ok r ∧
                     l = name +:+ "(" +:+ format p.2 +:+ ") -> " +:+ format r)
            [PAIR_1; PAIR_2; PAIR_3] [LINE_1; LINE_2; LINE_3]) as Hlines.
  { eapply Forall2_impl; [apply fstrings|]. intros p l. apply fstring_Ok_inv. }
  split; [|exact Hlines].
  clear Hlines. pose proof fstrings as Hf.
  apply Forall2_cons in Hf as [F1 Hf]. apply Forall2_cons in Hf as [F2 Hf].
  apply Forall2_cons in Hf as [F3 _]. destruct calls_return as (H1 & H2 & H3).
  cbn [fst snd PAIR_1 PAIR_2 PAIR_3] in F1, F2, F3.
  constructor; [cbn [fst snd PAIR_1]; rewrite H1, F1; split; reflexivity|].
  constructor; [cbn [fst snd PAIR_2]; rewrite H2, F2; split; reflexivity|].
  constructor; [cbn [fst snd PAIR_3]; rewrite H3, F3; split; reflexivity|].
  constructor.
Qed.

(** ** C9: which [sqrt] *)

(** C9: the name [sqrt] is bound by [math], rebound by NumPy and rebound
    by [cmath], so the function of the first pair is the complex square
    root; applied to [-1] it does not raise and returns the complex number
    with real part [0.0] and imaginary part [1.0], which prints as [1j]. *)
Theorem C9_sqrt_is_the_complex_one :
  import_star math.exports ∅ !! "sqrt" = Some (VFn math_sqrt) ∧
  import_star numpy.exports (import_star math.exports ∅) !! "sqrt" = Some (VFn numpy_sqrt) ∧
  globals_after_imports !! "sqrt" = Some (VFn cmath_sqrt) ∧
  nth_pair 0 = Some (VFn cmath_sqrt, VInt (-1)) ∧
  call (VFn cmath_sqrt) (VInt (-1)) = Ok (VComplex (S754_zero false) F64.one) ∧
  format (VComplex (S754_zero false) F64.one) = "1j".
Proof.
  destruct exports_NoDup as (Hmath & Hnumpy & _).
  split; [apply import_star_rebinds; [exact Hmath | decide_closed]|].
  split; [apply import_star_rebinds; [exact Hnumpy | decide_closed]|].
  split; [apply sqrt_bound_by_cmath|].
  rewrite nth_pair_eq. split; [reflexivity|].
  split; [apply calls_return | by_evaluation].
Qed.

(** ** C10: the third input and its finiteness *)

(** C10: [float("inf") * 1j] is the complex number whose real part is NaN
    and whose imaginary part is infinite; the name [isfinite] is bound to
    the function of [cmath], the last module imported, which takes complex
    numbers; applied to this number it returns [False] and does not
    raise. *)
Theorem C10_isfinite_of_complex_infinity :
  float_of_str "inf" = Ok (VFloat (S754_infinity false)) ∧
  py_mul (VFloat (S754_infinity false)) ONE_J = Ok (VComplex S754_nan (S754_infinity false)) ∧
  nth_pair 2 = Some (VFn cmath_isfinite, VComplex S754_nan (S754_infinity false)) ∧
  globals_after_imports !! "isfinite" = Some (VFn cmath_isfinite) ∧
  call (VFn cmath_isfinite) (VComplex S754_nan (S754_infinity false)) = Ok (VBool false) ∧
  raises (call (VFn cmath_isfinite) (VComplex S754_nan (S754_infinity false))) = false.
Proof.
  split; [apply float_inf|]. split; [apply inf_times_1j|].
  rewrite nth_pair_eq. split; [reflexivity|].
  split; [apply isfinite_bound_by_cmath|].
  cbn [call apply_fn]. rewrite cmath_isfinite_complex. by split.
Qed.

(** * Further properties of the script's code *)

(** ** The imports (lines 1 to 3) *)

(** X1: after [from m import *], a name denotes the object of the last
    binding that the module's table has for it, and what it denoted before
    the import when the table has none; this holds for any table, also one
    that binds a name twice, and any namespace. *)
Theorem X1_import_star_lookup exports (g : gmap string value) x :
  import_star exports g !! x
  = match list_to_map (M := gmap string value) (reverse exports) !! x with
    | Some v => Some v
    | None => g !! x
    end.
Proof.
  rewrite import_star_union, lookup_union.
  destruct (list_to_map (reverse exports) !! x) as [v|]; [|by rewrite (left_id_L None _)].
  by destruct (g !! x).
Qed.

(** X2: a wildcard import never unbinds a name: what was bound before the
    import is bound after it, to the same object or to the module's. *)
Theorem X2_import_star_never_unbinds exports (g : gmap string value) x :
  is_Some (g !! x) → is_Some (import_star exports g !! x).
Proof.
  intros H. rewrite import_star_union. apply lookup_union_is_Some. by right.
Qed.

(** [ceil], bound by [math], is still bound after the import of [cmath],
    which has no [ceil]. *)
Lemma X2_import_star_never_unbinds_witness :
  is_Some (import_star math.exports ∅ !! "ceil") ∧
  is_Some (import_star cmath.exports (import_star math.exports ∅) !! "ceil").
Proof.
  assert (is_Some (import_star math.exports ∅ !! "ceil")) as H.
  { exists (VFn math_ceil). by_evaluation. }
  split; [exact H|]. exact (X2_import_star_never_unbinds cmath.exports _ "ceil" H).
Defined.

(** ** The assignment and the two lists (lines 5 and 6) *)

(** X3: the pairs of the loop do not depend on anything else the three
    modules export: whatever further names each module binds, [inf]
    included, as long as none of them is a name the script reads from a
    module ([sqrt], [ceil], [isfinite]) or from [builtins] ([float], [zip],
    [print], [Exception]), the script builds the same three pairs. *)
Theorem X3_pairs_ignore_other_exports more_math more_numpy more_cmath :
  Forall (λ x, (x ∉ more_math.*1) ∧ (x ∉ more_numpy.*1) ∧ (x ∉ more_cmath.*1))
         (function_names ++ builtins_read) →
  script_pairs_in
    (import_star (cmath.exports ++ more_cmath)
       (import_star (numpy.exports ++ more_numpy)
          (import_star (math.exports ++ more_math) ∅)))
  = script_pairs.
Proof.
  intros H.
  exact (script_pairs_in_env (mk_env DEFAULT_MAX_STR_DIGITS more_math more_numpy more_cmath) H).
Qed.

Lemma X3_pairs_ignore_other_exports_witness :
  Forall (λ x, (x ∉ OTHER_EXPORTS.*1) ∧ (x ∉ OTHER_EXPORTS.*1) ∧ (x ∉ OTHER_EXPORTS.*1))
         (function_names ++ builtins_read) ∧
  script_pairs_in
    (import_star (cmath.exports ++ OTHER_EXPORTS)
       (import_star (numpy.exports ++ OTHER_EXPORTS)
          (import_star (math.exports ++ OTHER_EXPORTS) ∅)))
  = script_pairs.
Proof.
  assert (Forall (λ x, (x ∉ OTHER_EXPORTS.*1) ∧ (x ∉ OTHER_EXPORTS.*1) ∧ (x ∉ OTHER_EXPORTS.*1))
                 (function_names ++ builtins_read)) as H.
  { decide_closed. }
  split; [exact H|]. exact (X3_pairs_ignore_other_exports _ _ _ H).
Defined.

(** X4: a float that is not finite, multiplied by [1j], is not purely
    imaginary: the real part of the product is NaN and the imaginary part
    is the float; and [cmath.isfinite] returns [False] on the product
    without raising. *)
Theorem X4_product_of_a_non_finite_float_with_1j x :
  F64.is_finite x = false →
  py_mul (VFloat x) ONE_J = Ok (VComplex F64.nan x) ∧
  call (VFn cmath_isfinite) (VComplex F64.nan x) = Ok (VBool false).
Proof.
  intros Hx. destruct x as [s|s| |s m e]; try discriminate Hx.
  - split; [apply inf_times_1j | apply cmath_isfinite_complex].
  - split; [by_evaluation | apply cmath_isfinite_complex].
Qed.

Lemma X4_product_of_a_non_finite_float_with_1j_witness :
  F64.is_finite (S754_infinity true) = false ∧
  py_mul (VFloat (S754_infinity true)) ONE_J = Ok (VComplex F64.nan (S754_infinity true)) ∧
  call (VFn cmath_isfinite) (VComplex F64.nan (S754_infinity true)) = Ok (VBool false).
Proof.
  split; [reflexivity|].
  apply X4_product_of_a_non_finite_float_with_1j. reflexivity.
Defined.

(** ** The loop (lines 6 to 10) *)

Lemma loop_body_frame p out :
  loop_body p out = ((loop_body p "").1, out +:+ (loop_body p "").2).
Proof.
  destruct p as [fn num]. destruct (fstring fn num) as [line|e|] eqn:Hf.
  - by rewrite !(loop_body_prints _ _ _ _ Hf).
  - by rewrite !(loop_body_catches _ _ _ _ Hf).
  - rewrite !(loop_body_unmodelled _ _ _ Hf). cbn. by rewrite app_nil_r.
Qed.

(** X5: the loop only appends to standard output, and what it appends
    and how it ends do not depend on what was written before: running it
    after the text [out] gives the result of running it from an empty
    output, with [out] in front of the text. *)
Theorem X5_loop_output_is_appended ps out :
  for_in ps loop_body out = ((for_in ps loop_body "").1, out +:+ (for_in ps loop_body "").2).
Proof.
  revert out. induction ps as [|p ps IH]; intros out.
  - cbn. by rewrite app_nil_r.
  - cbn [for_in]. unfold mbind, M_bind.
    rewrite (loop_body_frame p out).
    destruct (loop_body p "") as [[[]|e|] s]; cbn [fst snd]; [|done..].
    rewrite (IH (out +:+ s)), (IH s).
    by rewrite app_assoc.
Qed.

(** X6: looping over the concatenation of two lists of pairs is looping
    over the first and, when that ends normally, over the second from the
    output reached. *)
Theorem X6_loop_over_concatenation ps qs out :
  for_in (ps ++ qs) loop_body out =
  match for_in ps loop_body out with
  | (Ok _, out') => for_in qs loop_body out'
  | r => r
  end.
Proof.
  revert out. induction ps as [|p ps IH]; intros out; [done|].
  cbn [app for_in]. unfold mbind, M_bind.
  destruct (loop_body p out) as [[[]|e|] out']; [apply IH | done..].
Qed.

(** *** Every printed line is one line *)

Lemma no_newline_app s t : no_newline (s +:+ t) = no_newline s && no_newline t.
Proof.
  induction s as [|c s IH]; [done|]. rewrite app_cons. cbn [no_newline].
  by rewrite IH, andb_assoc.
Qed.

Lemma no_newline_pretty_N_go x s : no_newline s = true → no_newline (pretty_N_go x s) = true.
Proof.
  revert s. induction (N.lt_wf_0 x) as [x _ IH]; intros s Hs.
  destruct (decide (0 < x)%N) as [Hx|Hx].
  - rewrite pretty_N_go_step by done. apply IH; [by apply N.div_lt|].
    cbn [no_newline]. rewrite Hs, andb_true_r.
    unfold pretty_N_char. by repeat case_match.
  - replace x with 0%N by lia. by rewrite pretty_N_go_0.
Qed.

Lemma no_newline_pretty_N (x : N) : no_newline (pretty x) = true.
Proof.
  unfold pretty, pretty_N. destruct (decide (x = 0%N)); [done|].
  by apply no_newline_pretty_N_go.
Qed.

Lemma no_newline_pretty_Z (x : Z) : no_newline (pretty x) = true.
Proof.
  destruct x as [|p|p]; [done| |].
  - apply (no_newline_pretty_N (Npos p)).
  - change (pretty (Z.neg p)) with ("-" +:+ pretty (Npos p)).
    rewrite no_newline_app. by rewrite (no_newline_pretty_N (Npos p)).
Qed.

Lemma no_newline_substring n m s : no_newline s = true → no_newline (substring n m s) = true.
Proof.
  revert n m. induction s as [|c s IH]; intros n m Hs.
  - by destruct n, m.
  - cbn [no_newline] in Hs. apply andb_true_iff in Hs as [Hc Hs].
    destruct n as [|n], m as [|m]; cbn [substring no_newline]; [done| |by apply IH..].
    rewrite Hc. by apply IH.
Qed.

Lemma no_newline_zeros n : no_newline (Repr.zeros n) = true.
Proof.
  unfold Repr.zeros. induction (Z.to_nat n) as [|k IH]; [done|].
  cbn [repeat String.concat]. destruct (repeat _ k) eqn:Hk; [done|].
  rewrite no_newline_app. rewrite no_newline_app. by rewrite IH.
Qed.


Lemma no_newline_layout b digits decpt :
  no_newline digits = true → no_newline (Repr.layout b digits decpt) = true.
Proof.
  intros Hd. unfold Repr.layout, Repr.take, Repr.drop.
  repeat case_match; rewrite ?no_newline_app, ?no_newline_zeros, ?no_newline_pretty_Z,
    ?no_newline_substring, ?Hd by done; done.
Qed.

Lemma no_newline_shortest m e : no_newline (Repr.shortest m e).1 = true.
Proof.
  unfold Repr.shortest.
  destruct (match Repr.first_candidate _ _ _ _ with Some _ => _ | None => _ end) as [d k].
  apply no_newline_pretty_Z.
Qed.

Lemma no_newline_double_to_string a b x :
  no_newline (Repr.double_to_string a b x) = true.
Proof.
  unfold Repr.double_to_string. destruct x as [s|s| |s m e].
  - rewrite no_newline_app, no_newline_layout by done. by destruct s, a.
  - by destruct s, a.
  - by destruct a.
  - pose proof (no_newline_shortest (Z.pos m) e) as Hd.
    destruct (Repr.shortest (Z.pos m) e) as [digits decpt].
    rewrite no_newline_app, no_newline_layout by exact Hd. by destruct s, a.
Qed.

Lemma no_newline_format v : no_newline (format v) = true.
Proof.
  destruct v as [n|b|x|re im|x|b|f]; cbn [format].
  - apply no_newline_pretty_Z.
  - by destruct b.
  - apply no_newline_double_to_string.
  - unfold Repr.complex_repr. repeat case_match;
      rewrite ?no_newline_app, ?no_newline_double_to_string; done.
  - apply no_newline_double_to_string.
  - by destruct b.
  - by destruct f.
Qed.

Lemma no_newline_type_name v : no_newline (type_name v) = true.
Proof. destruct v as [| | | | | |f]; try done. by destruct f. Qed.

Lemma one_line_Ok {A} (a : A) : one_line_errors (Ok a).
Proof. intros e He. discriminate He. Qed.

Lemma one_line_Unmodelled {A} : one_line_errors (@Unmodelled A).
Proof. intros e He. discriminate He. Qed.

Lemma one_line_raise {A} c msg : no_newline msg = true → one_line_errors (@raise A c msg).
Proof. intros Hm e He. injection He as <-. exact Hm. Qed.

Lemma one_line_bind {A B} (m : res A) (f : A → res B) :
  one_line_errors m → (∀ a, one_line_errors (f a)) → one_line_errors (m ≫= f).
Proof.
  intros Hm Hf e. destruct m as [a|e'|]; simpl.
  - apply Hf.
  - intros He. injection He as <-. by apply Hm.
  - discriminate.
Qed.

Create HintDb one_line discriminated.
#[local] Hint Resolve one_line_Ok one_line_Unmodelled : one_line.

Lemma one_line_not_real v :
  one_line_errors (@raise spec_float TypeError ("must be real number, not " +:+ type_name v)).
Proof. apply one_line_raise. by rewrite no_newline_app, no_newline_type_name. Qed.

Lemma as_double_one_line v : one_line_errors (as_double v).
Proof.
  destruct v; cbn [as_double]; auto using one_line_not_real with one_line.
  unfold int_as_double. destruct (F64.is_inf _); [by apply one_line_raise | auto with one_line].
Qed.

Lemma as_complex_one_line v : one_line_errors (as_complex v).
Proof.
  unfold as_complex.
  destruct v; try (apply one_line_bind; [apply as_double_one_line|]); auto with one_line.
Qed.

Lemma apply_fn_one_line f v : one_line_errors (apply_fn f v).
Proof.
  destruct f; cbn [apply_fn].
  - unfold math.sqrt. apply one_line_bind; [apply as_double_one_line|]. intros x.
    destruct (_ && _); [by apply one_line_raise | auto with one_line].
  - assert (∀ x, one_line_errors (math.int_of_double x)) as Hint.
    { intros x. unfold math.int_of_double.
      destruct (F64.trunc_Z x), x; auto with one_line; by apply one_line_raise. }
    unfold math.ceil.
    destruct v; try (apply one_line_bind; [apply as_double_one_line | intros; apply Hint]);
      auto with one_line.
  - unfold math.isfinite. apply one_line_bind; [apply as_double_one_line | auto with one_line].
  - destruct v; cbn [numpy.sqrt]; try destruct (numpy.fits_int64 _); auto with one_line.
  - destruct v; cbn [numpy.ceil]; auto with one_line. by apply one_line_raise.
  - destruct v; cbn [numpy.isfinite]; try destruct (numpy.fits_int64 _); auto with one_line.
  - unfold cmath.sqrt. apply one_line_bind; [apply as_complex_one_line|]. intros z.
    destruct (cmath.c_sqrt _ _). auto with one_line.
  - unfold cmath.isfinite. apply one_line_bind; [apply as_complex_one_line | auto with one_line].
Qed.

Lemma call_one_line fn v : one_line_errors (call fn v).
Proof.
  destruct fn; cbn [call]; try apply apply_fn_one_line;
    apply one_line_raise; by rewrite !no_newline_app, no_newline_type_name.
Qed.

Lemma getattr_name_one_line v : one_line_errors (getattr_name v).
Proof.
  destruct v; cbn [getattr_name]; auto with one_line;
    apply one_line_raise; by rewrite !no_newline_app, no_newline_type_name.
Qed.

Lemma format_field_one_line limit v : one_line_errors (format_field limit v).
Proof.
  destruct v; cbn [format_field]; auto with one_line.
  destruct (int_str_too_long _ _); [|auto with one_line].
  apply one_line_raise. unfold int_str_error.
  by rewrite !no_newline_app, no_newline_pretty_Z.
Qed.

Lemma fstring_one_line fn num : one_line_errors (fstring fn num).
Proof.
  unfold fstring, fstring_with.
  apply one_line_bind; [apply getattr_name_one_line|]. intros name.
  apply one_line_bind; [apply format_field_one_line|]. intros shown.
  apply one_line_bind; [apply call_one_line|]. intros r.
  apply one_line_bind; [apply format_field_one_line | auto with one_line].
Qed.

Lemma no_newline_fn_name f : no_newline (fn_name f) = true.
Proof. by destruct f. Qed.

Lemma line_of_no_newline p l : line_of p = Some l → no_newline l = true.
Proof.
  destruct p as [fn num]. unfold line_of. cbn [fst snd].
  destruct (fstring fn num) as [line|e|] eqn:Hf; [| |done].
  - intros [= <-]. apply fstring_Ok_inv in Hf as (name & r & Hn & _ & ->).
    destruct fn; try discriminate Hn. injection Hn as <-.
    by rewrite !no_newline_app, !no_newline_format, no_newline_fn_name.
  - destruct (isinstance e Exception); [|done]. intros [= <-].
    by apply (fstring_one_line _ _ _ Hf).
Qed.

Lemma for_in_Ok_inv ps out out' :
  for_in ps loop_body out = (Ok (), out') →
  ∃ ls, Forall2 (λ p l, line_of p = Some l) ps ls ∧ out' = out +:+ unlines ls.
Proof.
  revert out. induction ps as [|[fn num] ps IH]; intros out.
  - intros [= <-]. exists []. split; [constructor|]. by rewrite app_nil_r.
  - cbn [for_in]. unfold mbind, M_bind.
    destruct (line_of (fn, num)) as [l|] eqn:Hl.
    + rewrite (loop_body_line _ _ _ Hl). intros (ls & Hls & ->)%IH.
      exists (l :: ls). split; [by constructor|]. cbn [unlines]. by rewrite !app_assoc.
    + unfold line_of in Hl. cbn [fst snd] in Hl.
      destruct (fstring fn num) as [line|e|] eqn:Hf; [done| |].
      * by rewrite (fstring_checked _ _ _ Hf) in Hl.
      * by rewrite (loop_body_unmodelled _ _ _ Hf).
Qed.

(** X7: for any list of pairs on which the loop ends normally, it writes
    exactly one line per pair and nothing else: the lines of the output
    are, in order, the line of each pair (its result line, or the message
    of the exception caught), none of which contains a newline. *)
Theorem X7_one_line_per_pair ps out' :
  for_in ps loop_body "" = (Ok (), out') →
  Forall2 (λ p l, line_of p = Some l) ps (lines out') ∧
  length (lines out') = length ps ∧
  out' = unlines (lines out').
Proof.
  intros (ls & Hls & ->)%for_in_Ok_inv.
  assert (lines ("" +:+ unlines ls) = ls) as ->.
  { apply lines_unlines. clear -Hls.
    induction Hls as [|p l ps ls Hp _ IH]; constructor; [|exact IH].
    by apply (line_of_no_newline p). }
  split; [done|]. split; [|done]. symmetry. by eapply Forall2_length.
Qed.

(** The loop with the functions of [math] writes three lines for its three
    pairs, two of them error messages. *)
Lemma X7_one_line_per_pair_witness :
  for_in [(VFn math_sqrt, VInt (-1));
          (VFn math_ceil, VFloat (F64.of_decimal 45 1));
          (VFn math_isfinite, VComplex F64.nan F64.pinf)] loop_body ""
  = (Ok (), unlines ["math domain error"; "ceil(4.5) -> 5"; "must be real number, not complex"]) ∧
  (Forall2 (λ p l, line_of p = Some l)
     [(VFn math_sqrt, VInt (-1));
      (VFn math_ceil, VFloat (F64.of_decimal 45 1));
      (VFn math_isfinite, VComplex F64.nan F64.pinf)]
     (lines (unlines ["math domain error"; "ceil(4.5) -> 5"; "must be real number, not complex"])) ∧
   length (lines (unlines ["math domain error"; "ceil(4.5) -> 5";
                           "must be real number, not complex"]))
   = length [(VFn math_sqrt, VInt (-1));
             (VFn math_ceil, VFloat (F64.of_decimal 45 1));
             (VFn math_isfinite, VComplex F64.nan F64.pinf)] ∧
   unlines ["math domain error"; "ceil(4.5) -> 5"; "must be real number, not complex"]
   = unlines (lines (unlines ["math domain error"; "ceil(4.5) -> 5";
                              "must be real number, not complex"]))).
Proof.
  split; [exact loop_with_the_functions_of_math|].
  exact (X7_one_line_per_pair _ _ loop_with_the_functions_of_math).
Defined.

(** ** The calls (line 8) *)

Lemma as_complex_cases v :
  (∃ z, as_complex v = Ok z) ∨
  (∃ g, v = VFn g ∧
        as_complex v = raise TypeError ("must be real number, not " +:+ type_name v)) ∨
  (∃ n, v = VInt n ∧ F64.is_inf (F64.of_Z n) = true ∧
        as_complex v = raise OverflowError "int too large to convert to float").
Proof.
  destruct v as [n|b|x|re im|x|b|g]; cbn [as_complex as_double mbind res_bind].
  - unfold int_as_double. destruct (F64.is_inf (F64.of_Z n)) eqn:Hn.
    + right. right. by exists n.
    + left. by eexists.
  - left. by eexists.
  - left. by eexists.
  - left. by eexists.
  - left. by eexists.
  - left. by eexists.
  - right. left. by exists g.
Qed.

(** X8: each of the two functions of [cmath] that the script calls either
    returns, or raises a type error because its argument is a function
    object and not a number, or raises an overflow error because its
    argument is an integer too large for a float; so on every float,
    complex number and boolean it returns. *)
Theorem X8_cmath_raises_only_on_non_numbers f v :
  f = cmath_sqrt ∨ f = cmath_isfinite →
  (∃ r, call (VFn f) v = Ok r) ∨
  (∃ g, v = VFn g ∧
        call (VFn f) v = raise TypeError ("must be real number, not " +:+ type_name v)) ∨
  (∃ n, v = VInt n ∧ F64.is_inf (F64.of_Z n) = true ∧
        call (VFn f) v = raise OverflowError "int too large to convert to float").
Proof.
  intros Hf.
  assert (∀ z, as_complex v = Ok z → ∃ r, call (VFn f) v = Ok r) as Hok.
  { intros z Hz. destruct Hf as [-> | ->]; cbn [call apply_fn].
    - destruct (cmath_sqrt_total v z Hz) as (re & im & ->). by eexists.
    - unfold cmath.isfinite. rewrite Hz. by eexists. }
  assert (∀ e, as_complex v = Raise e → call (VFn f) v = Raise e) as Hraise.
  { intros e Hz. destruct Hf as [-> | ->]; cbn [call apply_fn];
      unfold cmath.sqrt, cmath.isfinite; by rewrite Hz. }
  destruct (as_complex_cases v) as [(z & Hz) | [(g & -> & Hz) | (n & -> & Hn & Hz)]].
  - left. by apply (Hok z).
  - right. left. exists g. split; [done|]. by apply Hraise.
  - right. right. exists n. split; [done|]. split; [done|]. by apply Hraise.
Qed.

Lemma X8_cmath_raises_only_on_non_numbers_witness :
  (cmath_sqrt = cmath_sqrt ∨ cmath_sqrt = cmath_isfinite) ∧
  ((∃ r, call (VFn cmath_sqrt) (VFn math_sqrt) = Ok r) ∨
   (∃ g, VFn math_sqrt = VFn g ∧
         call (VFn cmath_sqrt) (VFn math_sqrt)
         = raise TypeError ("must be real number, not " +:+ type_name (VFn math_sqrt))) ∨
   (∃ n, VFn math_sqrt = VInt n ∧ F64.is_inf (F64.of_Z n) = true ∧
         call (VFn cmath_sqrt) (VFn math_sqrt)
         = raise OverflowError "int too large to convert to float")).
Proof.
  split; [by left|].
  apply (X8_cmath_raises_only_on_non_numbers cmath_sqrt). by left.
Defined.

(** X9: the name of the function is read before the function is called:
    for a callee that is not a function object, the iteration prints the
    message of the attribute error for [__name__], whatever the input, and
    the call (which would raise a type error of its own) is not made. *)
Theorem X9_non_function_callee fn num out :
  (∀ f, fn ≠ VFn f) →
  loop_body (fn, num) out
  = (Ok (), out +:+ ("'" +:+ type_name fn +:+ "' object has no attribute '__name__'") +:+ newline).
Proof.
  intros Hfn.
  rewrite (loop_body_catches fn num
             (mk_exn AttributeError
                ("'" +:+ type_name fn +:+ "' object has no attribute '__name__'")));
    [reflexivity|].
  unfold fstring, fstring_with.
  destruct fn as [| | | | | |f]; try reflexivity. by destruct (Hfn f).
Qed.

Lemma X9_non_function_callee_witness :
  (∀ f, VInt 3 ≠ VFn f) ∧
  loop_body (VInt 3, VInt 4) ""
  = (Ok (), "" +:+ ("'" +:+ type_name (VInt 3) +:+ "' object has no attribute '__name__'") +:+ newline).
Proof.
  split; [intros f; discriminate|].
  apply X9_non_function_callee. intros f; discriminate.
Defined.
